(** * A shallow embedding of the header-only console logger

    The repository ships the same logger twice: [logger_cpp11.hpp] and
    [logger_cpp23.hpp].  Both define

    - [enum class Level] and the two lookup functions [Logger::colorCode]
      and [Logger::levelLabel];
    - [class Logger], a temporary whose constructor renders a header into a
      private [std::ostringstream], whose [operator<<] appends to it and
      whose destructor inserts the buffer into [std::clog];
    - the [log_trace] .. [log_profiling] macros, switched by [NDEBUG];
    - [class ScopeLogger] and the [log_profile] macro.

    The embedding keeps one module per header ([Cpp11], [Cpp23]) on top of a
    common model of the pieces of the C++ library the headers call: integer
    and fixed-point stream formatting, the two clocks, [std::clog] and the
    count of uncaught exceptions. *)

From Stdlib Require Import ZArith NArith Lia List Bool Ascii String.
From Stdlib Require Import Floats Uint63.
Import ListNotations.

Local Open Scope string_scope.
Local Open Scope Z_scope.

Set Implicit Arguments.

(* ================================================================== *)
(** * Characters and strings *)

Definition ESC : string := String "027"%char EmptyString.   (* "\033" *)
Definition NL : string := String "010"%char EmptyString.    (* '\n' *)

(** ["\033[0m"], the literal both headers use to reset the colour. *)
Definition RESET : string := ESC ++ "[0m".

Definition is_digit (c : ascii) : bool :=
  let n := N_of_ascii c in ((48 <=? n) && (n <=? 57))%N.

Fixpoint forall_chars (p : ascii -> bool) (s : string) : bool :=
  match s with
  | EmptyString => true
  | String c s' => p c && forall_chars p s'
  end.

Definition all_digits (s : string) : bool := forall_chars is_digit s.



(** [absent c s]: the character [c] does not occur in [s]. *)
Definition absent (c : ascii) (s : string) : bool :=
  forall_chars (fun d => negb (Ascii.eqb c d)) s.

Fixpoint count_char (c : ascii) (s : string) : nat :=
  match s with
  | EmptyString => O
  | String d s' => ((if Ascii.eqb c d then 1 else 0) + count_char c s')%nat
  end.

(** Number of positions of [s] at which [pat] occurs. *)
Fixpoint occurrences (pat s : string) : nat :=
  match s with
  | EmptyString => if prefix pat s then 1%nat else 0%nat
  | String _ s' => ((if prefix pat s then 1 else 0) + occurrences pat s')%nat
  end.

Fixpoint repeat_char (c : ascii) (n : nat) : string :=
  match n with
  | O => EmptyString
  | S n' => String c (repeat_char c n')
  end.

(* ================================================================== *)
(** * Stream formatting ([<ostream>], [<iomanip>], [<format>]) *)

Definition digit_char (d : N) : ascii := ascii_of_N (48 + d).

Fixpoint decimal_aux (fuel : nat) (n : N) (acc : string) : string :=
  match fuel with
  | O => acc
  | S fuel' =>
      let acc' := String (digit_char (n mod 10)) acc in
      if (n / 10 =? 0)%N then acc' else decimal_aux fuel' (n / 10)%N acc'
  end.

(** Decimal rendering of an unsigned integer; a number has no more decimal
    than binary digits, which bounds the recursion. *)
Definition decimal (n : N) : string :=
  decimal_aux (S (N.to_nat (N.log2 n))) n "".

(** [os << v] for a signed integer [v] with the default flags. *)
Definition show_int (z : Z) : string :=
  if z <? 0 then "-" ++ decimal (Z.abs_N z) else decimal (Z.to_N z).

(** [std::format("{}", v)] for a [uint32_t]: the value is an unsigned
    32-bit quantity. *)
Definition show_uint32 (z : Z) : string := decimal (Z.to_N (z mod 2 ^ 32)).

(** [os << std::setw(w) << std::setfill(fill) << v]: the field is padded
    on the left (the default adjustment) up to [w] characters and is never
    truncated. *)
Definition setw_setfill (w : nat) (fill : ascii) (field : string) : string :=
  repeat_char fill (w - String.length field) ++ field.

(** ** Durations

    [double duration_ms = elapsed_us / 1000.0] is printed in fixed notation
    with precision 3, through [std::fixed << std::setprecision(3)] in one
    header and through the format specification [{:0.3f}] in the other.
    [elapsed_us] is a whole number of microseconds, so the quotient is the
    double nearest to a decimal with three fractional digits, and printing
    it with three fractional digits gives that decimal back as long as the
    count is below 2^52 (some 140 years).  The headers are therefore run on
    the count itself, read as thousandths of a millisecond, and [fixed3]
    prints it as the milliseconds it stands for. *)
Definition fixed3 (thousandths : Z) : string :=
  let a := Z.abs_N thousandths in
  (if thousandths <? 0 then "-" else "")
    ++ decimal (a / 1000)%N ++ "."
    ++ setw_setfill 3 "0" (decimal (a mod 1000)%N).

(** The same computation in IEEE 754 binary64, to compare [fixed3] with.
    [double_of_int] is the conversion of the 64-bit count, [double_ms] the
    division of the destructor. *)
Definition double_of_int (z : Z) : float :=
  if z <? 0 then PrimFloat.opp (PrimFloat.of_uint63 (Uint63.of_Z (- z)))
  else PrimFloat.of_uint63 (Uint63.of_Z z).

Definition double_ms (elapsed_us : Z) : float :=
  PrimFloat.div (double_of_int elapsed_us) 1000%float.

(** The multiple of [1/1000] nearest to [m * 2^e], ties to even: what
    printing with precision 3 keeps of a finite double. *)
Definition nearest_thousandth (m : positive) (e : Z) : Z :=
  let num := Z.pos m * 1000 in
  if 0 <=? e then num * 2 ^ e
  else
    let den := 2 ^ (- e) in
    let q := num / den in
    let r := num mod den in
    if (den <? 2 * r) || ((den =? 2 * r) && Z.odd q) then q + 1 else q.

(** [os << std::fixed << std::setprecision(3) << d] *)
Definition fixed3_double (d : float) : string :=
  match Prim2SF d with
  | S754_zero s => (if s then "-" else "") ++ "0.000"
  | S754_finite s m e =>
      (if s then "-" else "") ++ fixed3 (nearest_thousandth m e)
  | S754_infinity s => (if s then "-" else "") ++ "inf"
  | S754_nan => "nan"
  end.

(** What [operator<<] on a [std::ostream] appends for a value of type [T]
    (default formatting flags). *)
Class Insertable (T : Type) := insert_text : T -> string.

#[global] Instance Insertable_string : Insertable string := fun s => s.
#[global] Instance Insertable_char : Insertable ascii :=
  fun c => String c EmptyString.
#[global] Instance Insertable_int : Insertable Z := show_int.
#[global] Instance Insertable_unsigned : Insertable N := decimal.
(** Without [std::boolalpha] a [bool] is printed as a number. *)
#[global] Instance Insertable_bool : Insertable bool :=
  fun b => if b then "1" else "0".

(* ================================================================== *)
(** * The severity levels *)

(** [enum class Level { Trace, Debug, Info, Notice, Warning, Error,
    Critical, Alert, Emergency, Profile };] *)
Inductive Level : Type :=
  | Trace | Debug | Info | Notice | Warning
  | Error | Critical | Alert | Emergency | Profile.

Definition all_levels : list Level :=
  [Trace; Debug; Info; Notice; Warning; Error; Critical; Alert; Emergency;
   Profile].

(** A scoped enumeration without an explicit base has underlying type
    [int]; an object of type [Level] holds any value of that type (it can be
    produced by [static_cast<Level>]), of which ten are named. *)
Definition level_t : Type := Z.

(** [INT_MAX], the largest line number an [int] holds. *)
Definition int_max : Z := 2 ^ 31 - 1.

Definition enumerator (l : Level) : level_t :=
  match l with
  | Trace => 0 | Debug => 1 | Info => 2 | Notice => 3 | Warning => 4
  | Error => 5 | Critical => 6 | Alert => 7 | Emergency => 8 | Profile => 9
  end.

(** The [case] label a [switch (level)] over all ten enumerators selects;
    [None] is the [default:] label. *)
Definition switch_case (v : level_t) : option Level :=
  find (fun l => enumerator l =? v) all_levels.

(* ================================================================== *)
(** * The environment of a log statement *)

(** The fields of [std::tm] that ["%T"] reads. *)
Record tm : Type := mk_tm { tm_hour : Z; tm_min : Z; tm_sec : Z }.

(** Everything a log statement reads or changes.

    - [host]: the state of the program that contains the log statement;
    - [clog]: the character sequences inserted into [std::clog] so far, one
      element per call of its [operator<<], oldest first;
    - [system_clock k], [steady_clock k]: what the [k]-th call of
      [system_clock::now()] / [steady_clock::now()] returns, as a count of
      nanoseconds since the clock's epoch (the headers only take the whole
      seconds and milliseconds of the first and the whole microseconds of
      the second out of it); [system_reads] and [steady_reads] count the
      calls made so far;
    - [localtime]: the time zone rules applied by [localtime_r] /
      [localtime_s];
    - [uncaught]: [std::uncaught_exceptions()] of the running thread. *)
Record World (U : Type) : Type := mk_World {
  host : U;
  clog : list string;
  system_clock : nat -> Z;
  system_reads : nat;
  steady_clock : nat -> Z;
  steady_reads : nat;
  localtime : Z -> tm;
  uncaught : nat
}.

(** Computations over the world. *)
Definition M (U A : Type) : Type := World U -> A * World U.

Definition ret {U A : Type} (a : A) : M U A := fun w => (a, w).

Definition bind {U A B : Type} (m : M U A) (k : A -> M U B) : M U B :=
  fun w => let (a, w') := m w in k a w'.

Declare Scope logger_scope.
Delimit Scope logger_scope with logger.
Notation "x <- m ;; k" := (bind m (fun x => k))
  (at level 61, m at next level, right associativity) : logger_scope.
Notation "m ;; k" := (bind m (fun _ => k))
  (at level 61, right associativity) : logger_scope.
Local Open Scope logger_scope.

Section Library.
Context {U : Type}.

Definition tick_system (w : World U) : World U :=
  mk_World (host w) (clog w) (system_clock w) (S (system_reads w))
           (steady_clock w) (steady_reads w) (localtime w) (uncaught w).

Definition tick_steady (w : World U) : World U :=
  mk_World (host w) (clog w) (system_clock w) (system_reads w)
           (steady_clock w) (S (steady_reads w)) (localtime w) (uncaught w).

Definition inserted (s : string) (w : World U) : World U :=
  mk_World (host w) (clog w ++ [s]) (system_clock w) (system_reads w)
           (steady_clock w) (steady_reads w) (localtime w) (uncaught w).

(** [std::chrono::system_clock::now().time_since_epoch()] *)
Definition system_clock_now : M U Z := fun w =>
  (system_clock w (system_reads w), tick_system w).

(** [std::chrono::steady_clock::now()] *)
Definition steady_clock_now : M U Z := fun w =>
  (steady_clock w (steady_reads w), tick_steady w).

(** [localtime_r(&itt, &tm)] *)
Definition localtime_r (itt : Z) : M U tm := fun w => (localtime w itt, w).

(** [std::uncaught_exceptions()] (C++17) *)
Definition uncaught_exceptions : M U Z := fun w => (Z.of_nat (uncaught w), w).

(** [std::uncaught_exception()] (until C++20): whether an exception has
    been thrown and not yet caught. *)
Definition uncaught_exception : M U bool := fun w =>
  (negb (Nat.eqb (uncaught w) 0), w).

(** [std::clog << s] *)
Definition clog_insert (s : string) : M U unit := fun w =>
  (tt, inserted s w).
End Library.

(** ** Library calls that throw

    The computations above describe the executions in which no library call
    throws.  A call that allocates (building a [std::string], formatting)
    can throw [std::bad_alloc]; the three ways a piece of code can end are
    then told apart. *)
Inductive Outcome (U A : Type) : Type :=
  | Returned (a : A) (w : World U)   (* ran to its end *)
  | Thrown (w : World U)             (* left by an exception *)
  | Terminated (w : World U).        (* [std::terminate] was called *)
Arguments Thrown {U A} w.
Arguments Terminated {U A} w.

Definition E (U A : Type) : Type := World U -> Outcome U A.

Definition lift {U A : Type} (m : M U A) : E U A :=
  fun w => let (a, w') := m w in Returned a w'.

Definition ebind {U A B : Type} (e : E U A) (k : A -> E U B) : E U B :=
  fun w =>
    match e w with
    | Returned a w' => k a w'
    | Thrown w' => Thrown w'
    | Terminated w' => Terminated w'
    end.

Notation "x <-! e ;; k" := (ebind e (fun x => k))
  (at level 61, e at next level, right associativity) : logger_scope.

(** A call that throws before it has had any effect when [throws] holds,
    and behaves as [m] otherwise. *)
Definition may_throw {U A : Type} (throws : bool) (m : M U A) : E U A :=
  fun w => if throws then Thrown w else lift m w.

(** A function declared [noexcept]: an exception that would leave it calls
    [std::terminate] instead. *)
Definition noexcept {U A : Type} (e : E U A) : E U A :=
  fun w =>
    match e w with
    | Thrown w' => Terminated w'
    | o => o
    end.

(** Which of the allocating steps of [~ScopeLogger] throw: building the
    message, and the log statement that emits it. *)
Record Faults : Type := mk_Faults {
  formatting_throws : bool;
  logging_throws : bool
}.

(** [duration_cast] to a coarser unit truncates towards zero. *)
Definition duration_cast_microseconds (ns : Z) : Z := Z.quot ns 1000.
Definition duration_cast_milliseconds (ns : Z) : Z := Z.quot ns 1000000.
(** [system_clock::to_time_t]: whole seconds since the epoch. *)
Definition to_time_t (ns : Z) : Z := Z.quot ns 1000000000.

(** [std::put_time(&tm, "%T")], that is ["%H:%M:%S"]: each field as a
    decimal number of two digits. *)
Definition put_time_T (t : tm) : string :=
  setw_setfill 2 "0" (show_int (tm_hour t)) ++ ":"
    ++ setw_setfill 2 "0" (show_int (tm_min t)) ++ ":"
    ++ setw_setfill 2 "0" (show_int (tm_sec t)).


(** A streamed operand: an expression of the host program, evaluated when
    the statement runs, of a type that can be inserted into a stream. *)
Inductive Operand (U : Type) : Type :=
  | operand : forall T : Type, Insertable T -> M U T -> Operand U.

(** An operand without side effects. *)
Definition value {U T : Type} `{Insertable T} (v : T) : Operand U :=
  operand _ (ret v).

(* ================================================================== *)
(** * [logger_cpp11.hpp] *)

Module Cpp11.

(** [static const char *colorCode(Level level)] *)
Definition colorCode (level : level_t) : string :=
  match switch_case level with
  | Some Trace => ESC ++ "[1;37m"
  | Some Debug => ESC ++ "[1;34m"
  | Some Info => ESC ++ "[1;32m"
  | Some Notice => ESC ++ "[1;36m"
  | Some Warning => ESC ++ "[1;33m"
  | Some Error => ESC ++ "[1;31m"
  | Some Critical => ESC ++ "[1;35m"
  | Some Alert => ESC ++ "[1;41m"
  | Some Emergency => ESC ++ "[1;41;97m"
  | Some Profile => ESC ++ "[1;36m"
  | None => ESC ++ "[0m"
  end.

(** [static const char *levelLabel(Level level)] *)
Definition levelLabel (level : level_t) : string :=
  match switch_case level with
  | Some Trace => "  TRACE  "
  | Some Debug => "  DEBUG  "
  | Some Info => "  INFO   "
  | Some Notice => " NOTICE  "
  | Some Warning => " WARNING "
  | Some Error => "  ERROR  "
  | Some Critical => "CRITICAL "
  | Some Alert => "  ALERT  "
  | Some Emergency => "EMERGENCY"
  | Some Profile => "PROFILING"
  | None => " UNKNOWN "
  end.

(** [class Logger]: its only data member. *)
Record Logger : Type := mk_Logger { m_stream : string }.

(** [class ScopeLogger]; [m_start] is a [steady_clock::time_point].  The
    copy constructor and the copy assignment are deleted: no operation
    below duplicates a timer. *)
Record ScopeLogger : Type := mk_ScopeLogger {
  m_tag : string;
  m_file_name : string;
  m_line : Z;
  m_start : Z
}.

Section Host.
Context {U : Type}.

(** [std::string timestamp() const] *)
Definition timestamp : M U string :=
  now <- system_clock_now ;;
  let ms := Z.rem (duration_cast_milliseconds now) 1000 in
  let itt := to_time_t now in
  tm <- localtime_r itt ;;
  let oss := "" in
  let oss := oss ++ put_time_T tm ++ "."
                 ++ setw_setfill 3 "0" (show_int ms) in
  ret oss.

(** [explicit Logger(Level level, const std::string &category = {})] *)
Definition Logger_ctor (level : level_t) (category : string)
  : M U Logger :=
  let m_stream := "" in
  ts <- timestamp ;;
  let m_stream := m_stream ++ "[" ++ ts ++ "][" ++ colorCode level
                           ++ levelLabel level ++ ESC ++ "[0m]" in
  let m_stream :=
    if (String.length category =? 0)%nat then m_stream
    else m_stream ++ "[" ++ category ++ "]" in
  let m_stream := m_stream ++ " " in
  ret (mk_Logger m_stream).

(** [template <typename T> Logger &operator<<(const T &value)] *)
Definition Logger_shl {T : Type} `{Insertable T} (self : Logger) (v : T)
  : Logger :=
  mk_Logger (m_stream self ++ insert_text v).

(** [~Logger()] *)
Definition Logger_dtor (self : Logger) : M U unit :=
  let m_stream := m_stream self ++ ESC ++ "[0m" in
  clog_insert m_stream ;;
  clog_insert NL.

(** The operands of the chain [Logger(..) << a << b << ...], evaluated
    and inserted from left to right (the order of the insertions is that of
    the chain; the operands are evaluated in the same order since C++17). *)
Fixpoint stream_operands (self : Logger) (ops : list (Operand U))
  : M U Logger :=
  match ops with
  | [] => ret self
  | operand _ e :: ops' =>
      v <- e ;; stream_operands (Logger_shl self v) ops'
  end.

(** The statement [log::Logger(level, category) << a << b << ...;]: the
    temporary dies at the end of the full expression. *)
Definition log_statement (level : Level) (category : string)
    (ops : list (Operand U)) : M U unit :=
  tmp <- Logger_ctor (enumerator level) category ;;
  tmp <- stream_operands tmp ops ;;
  Logger_dtor tmp.

(** The statement [log_xxx(category) << a << b << ...;].  With [NDEBUG]
    the macro expands to [if (true) {} else log::Logger(..)], without it
    to [log::Logger(..)]. *)
Definition log_macro (level : Level) (NDEBUG : bool) (category : string)
    (ops : list (Operand U)) : M U unit :=
  if NDEBUG then
    if true then ret tt else log_statement level category ops
  else log_statement level category ops.

Definition log_trace := log_macro Trace.
Definition log_debug := log_macro Debug.
Definition log_info := log_macro Info.
Definition log_notice := log_macro Notice.
Definition log_warning := log_macro Warning.
Definition log_error := log_macro Error.
Definition log_critical := log_macro Critical.
Definition log_alert := log_macro Alert.
Definition log_emergency := log_macro Emergency.
Definition log_profiling := log_macro Profile.

(** [ScopeLogger(const std::string &tag, const char *file, int line)] *)
Definition ScopeLogger_ctor (NDEBUG : bool) (tag file : string) (line : Z)
  : M U ScopeLogger :=
  start <- steady_clock_now ;;
  let self := mk_ScopeLogger tag file line start in
  let oss := "" in
  let oss := oss ++ "START " ++ m_tag self ++ " @ " ++ m_file_name self
                 ++ ":" ++ show_int (m_line self) in
  log_profiling NDEBUG "" [value oss] ;;
  ret self.

(** [~ScopeLogger() noexcept] *)
Definition ScopeLogger_dtor (NDEBUG : bool) (self : ScopeLogger)
  : M U unit :=
  now <- steady_clock_now ;;
  let elapsed_us := duration_cast_microseconds (now - m_start self) in
  let duration_ms := elapsed_us (* thousandths of a millisecond *) in
  unwinding <- uncaught_exception ;;
  let leave_message := if unwinding then "EXCEPTION!" else "FINISH" in
  let oss := "" in
  let oss := oss ++ leave_message ++ " " ++ m_tag self ++ " ("
                 ++ fixed3 duration_ms ++ "ms)"
                 ++ " @ " ++ m_file_name self ++ ":"
                 ++ show_int (m_line self) in
  log_profiling NDEBUG "" [value oss].

(** [~ScopeLogger() noexcept] again, with the calls that can throw
    marked: the body has no [try] block, [steady_clock::now] and
    [uncaught_exception] are themselves [noexcept].  The message is built
    in [oss] before the log statement, with or without [NDEBUG]; the
    statement, which starts by copying the message out of [oss], is not
    executed with [NDEBUG]. *)
Definition ScopeLogger_dtor_body (f : Faults) (NDEBUG : bool)
    (self : ScopeLogger) : E U unit :=
  now <-! lift steady_clock_now ;;
  let elapsed_us := duration_cast_microseconds (now - m_start self) in
  let duration_ms := elapsed_us in
  unwinding <-! lift uncaught_exception ;;
  let leave_message := if unwinding then "EXCEPTION!" else "FINISH" in
  text <-! may_throw (formatting_throws f)
             (let oss := "" in
              let oss := oss ++ leave_message ++ " " ++ m_tag self ++ " ("
                             ++ fixed3 duration_ms ++ "ms)"
                             ++ " @ " ++ m_file_name self ++ ":"
                             ++ show_int (m_line self) in
              ret oss) ;;
  may_throw (negb NDEBUG && logging_throws f)
            (log_profiling NDEBUG "" [value text]).

Definition ScopeLogger_dtor_noexcept (f : Faults) (NDEBUG : bool)
    (self : ScopeLogger) : E U unit :=
  noexcept (ScopeLogger_dtor_body f NDEBUG self).

(** [ScopeLogger(ScopeLogger &&) = default]: every member is moved.
    Moving an [int] or a [time_point] copies it; a moved-from
    [std::string] keeps some valid value that the library chooses
    ([left_tag], [left_file]; empty in practice).  The result is the new
    object and the object moved from, which stays alive. *)
Definition ScopeLogger_move (left_tag left_file : string)
    (other : ScopeLogger) : ScopeLogger * ScopeLogger :=
  (mk_ScopeLogger (m_tag other) (m_file_name other) (m_line other)
                  (m_start other),
   mk_ScopeLogger left_tag left_file (m_line other) (m_start other)).

(** The block [{ log_profile(tag); rest }].  Without [NDEBUG] the macro
    declares [log::ScopeLogger _scopelogger_N { "tag", __FILE__,
    __LINE__ }], an automatic object destroyed when the block is left,
    by a return or by an exception passing through; with [NDEBUG] it
    expands to nothing.  [uncaught] in the world [rest] leaves behind
    says which of the two exits it is. *)
Definition log_profile {A : Type} (NDEBUG : bool) (tag file : string)
    (line : Z) (rest : M U A) : M U A :=
  if NDEBUG then rest
  else
    _scopelogger_ <- ScopeLogger_ctor NDEBUG tag file line ;;
    r <- rest ;;
    ScopeLogger_dtor NDEBUG _scopelogger_ ;;
    ret r.

(** A block that moves its timer into a second object,
    [{ ScopeLogger a(tag, file, line); rest; ScopeLogger b(std::move(a)); }]:
    both automatic objects are destroyed at the closing brace, in the
    reverse order of their construction. *)
Definition moved_block {A : Type} (NDEBUG : bool)
    (left_tag left_file tag file : string) (line : Z) (rest : M U A)
  : M U A :=
  a <- ScopeLogger_ctor NDEBUG tag file line ;;
  r <- rest ;;
  let (b, a) := ScopeLogger_move left_tag left_file a in
  ScopeLogger_dtor NDEBUG b ;;
  ScopeLogger_dtor NDEBUG a ;;
  ret r.
(** [ScopeLogger &operator=(ScopeLogger &&) = default], as in
    [self = std::move(other)]: every member of [self] is assigned from the
    member of [other]; what [self] held is overwritten and no destructor
    runs.  The object moved from keeps its line and start instant and the
    strings the library leaves in it.  The result is [self] and [other]
    after the assignment. *)
Definition ScopeLogger_move_assign (left_tag left_file : string)
    (self other : ScopeLogger) : ScopeLogger * ScopeLogger :=
  (mk_ScopeLogger (m_tag other) (m_file_name other) (m_line other)
                  (m_start other),
   mk_ScopeLogger left_tag left_file (m_line other) (m_start other)).

(** The block
    [{ ScopeLogger a(tag_a, file_a, line_a); ScopeLogger b(tag_b, file_b,
       line_b); rest; a = std::move(b); }]:
    [b] is destroyed first, then [a]. *)
Definition reassigned_block {A : Type} (NDEBUG : bool)
    (left_tag left_file tag_a file_a : string) (line_a : Z)
    (tag_b file_b : string) (line_b : Z) (rest : M U A) : M U A :=
  a <- ScopeLogger_ctor NDEBUG tag_a file_a line_a ;;
  b <- ScopeLogger_ctor NDEBUG tag_b file_b line_b ;;
  r <- rest ;;
  let (a, b) := ScopeLogger_move_assign left_tag left_file a b in
  ScopeLogger_dtor NDEBUG b ;;
  ScopeLogger_dtor NDEBUG a ;;
  ret r.

(** An operand that is a call of a function which itself makes a log
    statement before it returns [v]. *)
Definition logging_call {T : Type} (level : Level) (category : string)
    (texts : list string) (v : T) : M U T :=
  log_macro level false category (map value texts) ;;
  ret v.
End Host.

End Cpp11.

(* ================================================================== *)
(** * [std::format], as far as [logger_cpp23.hpp] uses it *)

Inductive FormatArg : Type :=
  | fmt_text (s : string)            (* a [std::string_view] *)
  | fmt_uint32 (v : Z)               (* a [uint32_t] *)
  | fmt_double (thousandths : Z).    (* a [double], see [fixed3] *)

(** The text that replaces one replacement field [{spec}].  The header uses
    the empty specification for text and integers and [:0.3f] (fixed
    notation, precision 3; the zero flag has no effect without a width) for
    its one floating-point argument; other specifications of a [double] do
    not occur and are left without text. *)
Definition format_field (spec : string) (a : FormatArg) : string :=
  match a with
  | fmt_text s => s
  | fmt_uint32 v => show_uint32 v
  | fmt_double t => if String.eqb spec ":0.3f" then fixed3 t else ""
  end.

(** Scan the format string: characters outside braces are copied, and each
    replacement field consumes the next argument.  [field] is [Some spec]
    while the scan is between an opening brace and its closing brace. *)
Fixpoint format_scan (fmt : string) (field : option string)
    (args : list FormatArg) : string :=
  match fmt with
  | EmptyString => ""
  | String c fmt' =>
      match field with
      | None =>
          if Ascii.eqb c "{" then format_scan fmt' (Some "") args
          else String c (format_scan fmt' None args)
      | Some spec =>
          if Ascii.eqb c "}" then
            match args with
            | a :: args' => format_field spec a ++ format_scan fmt' None args'
            | [] => format_scan fmt' None []
            end
          else format_scan fmt' (Some (spec ++ String c "")) args
      end
  end.

Definition format (fmt : string) (args : list FormatArg) : string :=
  format_scan fmt None args.

(* ================================================================== *)
(** * [logger_cpp23.hpp] *)

Module Cpp23.

(** [static const char* colorCode(Level level)] *)
Definition colorCode (level : level_t) : string :=
  match switch_case level with
  | Some Trace => ESC ++ "[1;37m"
  | Some Debug => ESC ++ "[1;34m"
  | Some Info => ESC ++ "[1;32m"
  | Some Notice => ESC ++ "[1;36m"
  | Some Warning => ESC ++ "[1;33m"
  | Some Error => ESC ++ "[1;31m"
  | Some Critical => ESC ++ "[1;35m"
  | Some Alert => ESC ++ "[1;41m"
  | Some Emergency => ESC ++ "[1;41;97m"
  | Some Profile => ESC ++ "[1;36m"
  | None => ESC ++ "[0m"
  end.

(** [static const char* levelLabel(Level level)] *)
Definition levelLabel (level : level_t) : string :=
  match switch_case level with
  | Some Trace => "  TRACE  "
  | Some Debug => "  DEBUG  "
  | Some Info => "  INFO   "
  | Some Notice => " NOTICE  "
  | Some Warning => " WARNING "
  | Some Error => "  ERROR  "
  | Some Critical => "CRITICAL "
  | Some Alert => "  ALERT  "
  | Some Emergency => "EMERGENCY"
  | Some Profile => "PROFILING"
  | None => " UNKNOWN "
  end.

Record Logger : Type := mk_Logger { m_stream : string }.

(** [class ScopeLogger]: here [m_tag] and [m_file_name] are
    [std::string_view]s (represented by the characters they view) and
    [m_line] is a [uint32_t]. *)
Record ScopeLogger : Type := mk_ScopeLogger {
  m_tag : string;
  m_file_name : string;
  m_line : Z;
  m_start : Z
}.

Section Host.
Context {U : Type}.

(** [std::string timestamp() const] *)
Definition timestamp : M U string :=
  now <- system_clock_now ;;
  let ms := Z.rem (duration_cast_milliseconds now) 1000 in
  let itt := to_time_t now in
  tm <- localtime_r itt ;;
  let oss := "" in
  let oss := oss ++ put_time_T tm ++ "."
                 ++ setw_setfill 3 "0" (show_int ms) in
  ret oss.

(** [explicit Logger(Level level, const std::string& category = {})] *)
Definition Logger_ctor (level : level_t) (category : string)
  : M U Logger :=
  let m_stream := "" in
  ts <- timestamp ;;
  let m_stream := m_stream ++ "[" ++ ts ++ "][" ++ colorCode level
                           ++ levelLabel level ++ ESC ++ "[0m]" in
  let m_stream :=
    if (String.length category =? 0)%nat then m_stream
    else m_stream ++ "[" ++ category ++ "]" in
  let m_stream := m_stream ++ " " in
  ret (mk_Logger m_stream).

(** [template <typename T> Logger& operator<<(const T& value)] *)
Definition Logger_shl {T : Type} `{Insertable T} (self : Logger) (v : T)
  : Logger :=
  mk_Logger (m_stream self ++ insert_text v).

(** [~Logger()] *)
Definition Logger_dtor (self : Logger) : M U unit :=
  let m_stream := m_stream self ++ ESC ++ "[0m" in
  clog_insert m_stream ;;
  clog_insert NL.

Fixpoint stream_operands (self : Logger) (ops : list (Operand U))
  : M U Logger :=
  match ops with
  | [] => ret self
  | operand _ e :: ops' =>
      v <- e ;; stream_operands (Logger_shl self v) ops'
  end.

Definition log_statement (level : Level) (category : string)
    (ops : list (Operand U)) : M U unit :=
  tmp <- Logger_ctor (enumerator level) category ;;
  tmp <- stream_operands tmp ops ;;
  Logger_dtor tmp.

(** The same ten macros, with the same two expansions. *)
Definition log_macro (level : Level) (NDEBUG : bool) (category : string)
    (ops : list (Operand U)) : M U unit :=
  if NDEBUG then
    if true then ret tt else log_statement level category ops
  else log_statement level category ops.

Definition log_trace := log_macro Trace.
Definition log_debug := log_macro Debug.
Definition log_info := log_macro Info.
Definition log_notice := log_macro Notice.
Definition log_warning := log_macro Warning.
Definition log_error := log_macro Error.
Definition log_critical := log_macro Critical.
Definition log_alert := log_macro Alert.
Definition log_emergency := log_macro Emergency.
Definition log_profiling := log_macro Profile.

(** [explicit ScopeLogger(std::string_view tag = {},
    const std::source_location& location =
    std::source_location::current())]; [file] and [line] are
    [location.file_name()] and [location.line()]. *)
Definition ScopeLogger_ctor (NDEBUG : bool) (tag file : string) (line : Z)
  : M U ScopeLogger :=
  start <- steady_clock_now ;;
  let self := mk_ScopeLogger tag file line start in
  log_profiling NDEBUG ""
    [value (format "START {} @ {}:{}"
              [fmt_text (m_tag self); fmt_text (m_file_name self);
               fmt_uint32 (m_line self)])] ;;
  ret self.

(** [~ScopeLogger() noexcept] *)
Definition ScopeLogger_dtor (NDEBUG : bool) (self : ScopeLogger)
  : M U unit :=
  now <- steady_clock_now ;;
  let elapsed_us := duration_cast_microseconds (now - m_start self) in
  let duration_ms := elapsed_us (* thousandths of a millisecond *) in
  pending <- uncaught_exceptions ;;
  let leave_message := if pending =? 0 then "FINISH" else "EXCEPTION!" in
  log_profiling NDEBUG ""
    [value (format "{} {} ({:0.3f}ms) @ {}:{}"
              [fmt_text leave_message; fmt_text (m_tag self);
               fmt_double duration_ms; fmt_text (m_file_name self);
               fmt_uint32 (m_line self)])].

(** [~ScopeLogger() noexcept] again, with the calls that can throw
    marked.  [std::format] allocates its result; it is an operand of the
    log statement, so with [NDEBUG] it is not executed either. *)
Definition ScopeLogger_dtor_body (f : Faults) (NDEBUG : bool)
    (self : ScopeLogger) : E U unit :=
  now <-! lift steady_clock_now ;;
  let elapsed_us := duration_cast_microseconds (now - m_start self) in
  let duration_ms := elapsed_us in
  pending <-! lift uncaught_exceptions ;;
  let leave_message := if pending =? 0 then "FINISH" else "EXCEPTION!" in
  text <-! may_throw (negb NDEBUG && formatting_throws f)
             (ret (format "{} {} ({:0.3f}ms) @ {}:{}"
                     [fmt_text leave_message; fmt_text (m_tag self);
                      fmt_double duration_ms;
                      fmt_text (m_file_name self);
                      fmt_uint32 (m_line self)])) ;;
  may_throw (negb NDEBUG && logging_throws f)
            (log_profiling NDEBUG "" [value text]).

Definition ScopeLogger_dtor_noexcept (f : Faults) (NDEBUG : bool)
    (self : ScopeLogger) : E U unit :=
  noexcept (ScopeLogger_dtor_body f NDEBUG self).

(** [ScopeLogger(ScopeLogger&&) = default]: moving a [string_view], a
    [uint32_t] or a [time_point] copies it, so the object moved from
    keeps all its members. *)
Definition ScopeLogger_move (other : ScopeLogger)
  : ScopeLogger * ScopeLogger :=
  (mk_ScopeLogger (m_tag other) (m_file_name other) (m_line other)
                  (m_start other),
   other).

(** The block [{ log_profile(tag); rest }]; the macro is
    [log::ScopeLogger _scopelogger_N { "tag" }] or nothing. *)
Definition log_profile {A : Type} (NDEBUG : bool) (tag file : string)
    (line : Z) (rest : M U A) : M U A :=
  if NDEBUG then rest
  else
    _scopelogger_ <- ScopeLogger_ctor NDEBUG tag file line ;;
    r <- rest ;;
    ScopeLogger_dtor NDEBUG _scopelogger_ ;;
    ret r.

(** [{ ScopeLogger a(tag); rest; ScopeLogger b(std::move(a)); }] *)
Definition moved_block {A : Type} (NDEBUG : bool) (tag file : string)
    (line : Z) (rest : M U A) : M U A :=
  a <- ScopeLogger_ctor NDEBUG tag file line ;;
  r <- rest ;;
  let (b, a) := ScopeLogger_move a in
  ScopeLogger_dtor NDEBUG b ;;
  ScopeLogger_dtor NDEBUG a ;;
  ret r.
(** [ScopeLogger& operator=(ScopeLogger&&) = default], as in
    [self = std::move(other)]: every member of [self] is assigned from the
    member of [other], which keeps its own (views and numbers are copied);
    what [self] held is overwritten and no destructor runs. *)
Definition ScopeLogger_move_assign (self other : ScopeLogger)
  : ScopeLogger * ScopeLogger :=
  (mk_ScopeLogger (m_tag other) (m_file_name other) (m_line other)
                  (m_start other),
   other).

(** [{ ScopeLogger a(tag_a); ScopeLogger b(tag_b); rest;
       a = std::move(b); }] *)
Definition reassigned_block {A : Type} (NDEBUG : bool)
    (tag_a file_a : string) (line_a : Z)
    (tag_b file_b : string) (line_b : Z) (rest : M U A) : M U A :=
  a <- ScopeLogger_ctor NDEBUG tag_a file_a line_a ;;
  b <- ScopeLogger_ctor NDEBUG tag_b file_b line_b ;;
  r <- rest ;;
  let (a, b) := ScopeLogger_move_assign a b in
  ScopeLogger_dtor NDEBUG b ;;
  ScopeLogger_dtor NDEBUG a ;;
  ret r.

Definition logging_call {T : Type} (level : Level) (category : string)
    (texts : list string) (v : T) : M U T :=
  log_macro level false category (map value texts) ;;
  ret v.
End Host.

End Cpp23.

(* ================================================================== *)
(** * What the theorems are stated with *)

(** The operands of a statement evaluated from left to right, with the text
    each of them inserts. *)
Fixpoint operand_texts {U : Type} (ops : list (Operand U))
  : M U (list string) :=
  match ops with
  | [] => ret []
  | operand _ e :: ops' =>
      v <- e ;; texts <- operand_texts ops' ;; ret (insert_text v :: texts)
  end.

(** The severity table of the specification (section 4.1), and the meaning
    of the colour sequences it is compared with. *)
Module Spec.

Inductive Hue : Type :=
  | Black | Red | Green | Yellow | Blue | Magenta | Cyan | White.

Inductive ColorSemantic : Type :=
  | Bright (h : Hue)
  | RedBackground
  | RedBackgroundBrightWhiteText.

Definition label (l : Level) : string :=
  match l with
  | Trace => "  TRACE  "
  | Debug => "  DEBUG  "
  | Info => "  INFO   "
  | Notice => " NOTICE  "
  | Warning => " WARNING "
  | Error => "  ERROR  "
  | Critical => "CRITICAL "
  | Alert => "  ALERT  "
  | Emergency => "EMERGENCY"
  | Profile => "PROFILING"
  end.

Definition color (l : Level) : ColorSemantic :=
  match l with
  | Trace => Bright White
  | Debug => Bright Blue
  | Info => Bright Green
  | Notice => Bright Cyan
  | Warning => Bright Yellow
  | Error => Bright Red
  | Critical => Bright Magenta
  | Alert => RedBackground
  | Emergency => RedBackgroundBrightWhiteText
  | Profile => Bright Cyan
  end.

(** ** Select Graphic Rendition

    A colour sequence is [ESC [ p1 ; p2 ; ... m].  Parameter 0 resets,
    1 selects bold (increased intensity), 30-37 and 40-47 select the
    foreground and background hue, 90-97 a high-intensity foreground. *)
Record Rendition : Type := mk_Rendition {
  bold : bool;
  foreground : option (bool * Hue);   (* high intensity?, hue *)
  background : option Hue
}.

Definition plain : Rendition := mk_Rendition false None None.

Definition hue_code (h : Hue) : N :=
  match h with
  | Black => 0 | Red => 1 | Green => 2 | Yellow => 3
  | Blue => 4 | Magenta => 5 | Cyan => 6 | White => 7
  end%N.

Definition hue_of_code (n : N) : option Hue :=
  find (fun h => (hue_code h =? n)%N)
       [Black; Red; Green; Yellow; Blue; Magenta; Cyan; White].

Definition select (r : Rendition) (p : N) : Rendition :=
  if (p =? 0)%N then plain
  else if (p =? 1)%N then mk_Rendition true (foreground r) (background r)
  else if ((30 <=? p) && (p <=? 37))%N then
    match hue_of_code (p - 30) with
    | Some h => mk_Rendition (bold r) (Some (false, h)) (background r)
    | None => r
    end
  else if ((40 <=? p) && (p <=? 47))%N then
    match hue_of_code (p - 40) with
    | Some h => mk_Rendition (bold r) (foreground r) (Some h)
    | None => r
    end
  else if ((90 <=? p) && (p <=? 97))%N then
    match hue_of_code (p - 90) with
    | Some h => mk_Rendition (bold r) (Some (true, h)) (background r)
    | None => r
    end
  else r.

(** The parameters between [ESC [] and the final [m]. *)
Fixpoint parameters (s : string) (current : N) (done : list N)
  : option (list N) :=
  match s with
  | EmptyString => None
  | String c s' =>
      if Ascii.eqb c "m" then
        match s' with
        | EmptyString => Some (rev (current :: done))
        | _ => None
        end
      else if Ascii.eqb c ";" then parameters s' 0%N (current :: done)
      else if is_digit c then
        parameters s' (10 * current + (N_of_ascii c - 48))%N done
      else None
  end.

(** The rendition a colour sequence selects, starting from plain text. *)
Definition rendition (s : string) : option Rendition :=
  match s with
  | String e (String b s') =>
      if Ascii.eqb e "027" && Ascii.eqb b "[" then
        option_map (fun ps => fold_left select ps plain)
                   (parameters s' 0%N [])
      else None
  | _ => None
  end.

(** Text is bright when it is bold or uses a high-intensity hue. *)
Definition bright_text (h : Hue) (r : Rendition) : bool :=
  match foreground r with
  | Some (high, h') => (hue_code h =? hue_code h')%N && (high || bold r)
  | None => false
  end.

Definition on_red (r : Rendition) : bool :=
  match background r with
  | Some h => (hue_code h =? hue_code Red)%N
  | None => false
  end.

Definition shows (c : ColorSemantic) (r : Rendition) : bool :=
  match c with
  | Bright h =>
      bright_text h r
      && match background r with None => true | Some _ => false end
  | RedBackground =>
      on_red r
      && match foreground r with None => true | Some _ => false end
  | RedBackgroundBrightWhiteText => on_red r && bright_text White r
  end.

(** Whether a colour sequence has the meaning the table gives. *)
Definition has_color (c : ColorSemantic) (s : string) : bool :=
  match rendition s with
  | Some r => shows c r
  | None => false
  end.

End Spec.


(** The texts of several insertions, one after the other. *)
Definition concat_texts (texts : list string) : string :=
  fold_right append "" texts.

(** The world after a log statement whose operands have no effect of their
    own has emitted [line]: one reading of the system clock, and two
    insertions into [std::clog]. *)
Definition logged {U : Type} (line : string) (w : World U) : World U :=
  inserted NL (inserted line (tick_system w)).

(** The header of a Profile-level line without category, for a time
    stamp. *)
Definition profile_header (ts : string) : string :=
  "[" ++ ts ++ "][" ++ ESC ++ "[1;36m" ++ "PROFILING" ++ RESET ++ "] ".

(** The first word of the record a timer emits when it is destroyed while
    [pending] exceptions are uncaught. *)
Definition leave_word (pending : nat) : string :=
  if Nat.eqb pending 0 then "FINISH" else "EXCEPTION!".

(** ** Sample environments *)

(** Time zone rules of a host that keeps UTC. *)
Definition utc (itt : Z) : tm :=
  mk_tm ((itt / 3600) mod 24) ((itt / 60) mod 60) (itt mod 60).

(** A host whose system clock reads 2023-11-14 22:13:20.005 UTC and then
    advances by 3 ms per reading, whose steady clock advances by 1234567 ns
    per reading, and in which no exception is in flight. *)
Definition example_world : World nat :=
  mk_World 0%nat []
           (fun k => 1700000000005000000 + 3000000 * Z.of_nat k) 0
           (fun k => 1000 + 1234567 * Z.of_nat k) 0
           utc 0.

(** The same host while one exception is being unwound. *)
Definition unwinding_world : World nat :=
  mk_World 0%nat []
           (fun k => 1700000000005000000 + 3000000 * Z.of_nat k) 0
           (fun k => 1000 + 1234567 * Z.of_nat k) 0
           utc 1.

(** An operand with a side effect: [counter++] on a host whose state is one
    counter. *)
Definition post_increment : M nat Z := fun w =>
  (Z.of_nat (host w),
   mk_World (S (host w)) (clog w) (system_clock w) (system_reads w)
            (steady_clock w) (steady_reads w) (localtime w) (uncaught w)).

(** The characters a time stamp is made of. *)
Definition stamp_char (c : ascii) : bool :=
  is_digit c || Ascii.eqb c "-" || Ascii.eqb c ":" || Ascii.eqb c ".".

(** ** Reading the output *)

(** What a terminal shows of a text: the colour sequences, from [ESC] to
    the final [m], are not displayed. *)
Fixpoint visible_scan (in_sequence : bool) (s : string) : string :=
  match s with
  | EmptyString => ""
  | String c s' =>
      if in_sequence then visible_scan (negb (Ascii.eqb c "m")) s'
      else if Ascii.eqb c "027" then visible_scan true s'
      else String c (visible_scan false s')
  end.

Definition visible (s : string) : string := visible_scan false s.

(** A computation that only adds to what [std::clog] has received. *)
Definition grows {U A : Type} (m : M U A) : Prop :=
  forall w, exists more, clog (snd (m w)) = app (clog w) more.

Definition operand_grows {U : Type} (o : Operand U) : Prop :=
  match o with
  | operand _ e => grows e
  end.

(** The characters of a duration that is not negative. *)
Definition unsigned_char (c : ascii) : bool :=
  is_digit c || Ascii.eqb c ".".

(** A host whose system clock stands 5 ms before its epoch. *)
Definition before_epoch_world : World nat :=
  mk_World 0%nat [] (fun _ => -5000000) 0 (fun k => Z.of_nat k) 0 utc 0.

(* ================================================================== *)
(** * Strings *)

Lemma append_nil_r (s : string) : s ++ "" = s.
Proof. induction s as [|c s IH]; simpl; [reflexivity | now rewrite IH]. Qed.

Lemma append_assoc (s t u : string) : (s ++ t) ++ u = s ++ t ++ u.
Proof. induction s as [|c s IH]; simpl; [reflexivity | now rewrite IH]. Qed.

Lemma forall_chars_app (p : ascii -> bool) (s t : string) :
  forall_chars p (s ++ t) = forall_chars p s && forall_chars p t.
Proof.
  induction s as [|c s IH]; simpl; [reflexivity |].
  now rewrite IH, andb_assoc.
Qed.

Lemma forall_chars_weaken (p q : ascii -> bool) (s : string) :
  (forall c, p c = true -> q c = true) ->
  forall_chars p s = true -> forall_chars q s = true.
Proof.
  intros Hpq; induction s as [|c s IH]; simpl; [reflexivity |].
  intros H; apply andb_true_iff in H as [Hc Hs].
  apply andb_true_iff; split; auto.
Qed.

Lemma forall_chars_repeat (p : ascii -> bool) (c : ascii) (n : nat) :
  p c = true -> forall_chars p (repeat_char c n) = true.
Proof.
  intros Hc; induction n as [|n IH]; simpl; [reflexivity | now rewrite Hc].
Qed.

Lemma count_char_app (c : ascii) (s t : string) :
  count_char c (s ++ t) = (count_char c s + count_char c t)%nat.
Proof.
  induction s as [|d s IH]; simpl; [reflexivity |].
  rewrite IH; lia.
Qed.

Lemma count_char_absent (c : ascii) (s : string) :
  absent c s = true -> count_char c s = 0%nat.
Proof.
  unfold absent; induction s as [|d s IH]; simpl; [reflexivity |].
  intros H; apply andb_true_iff in H as [Hd Hs].
  apply negb_true_iff in Hd; rewrite Hd, (IH Hs); reflexivity.
Qed.

(** A pattern cannot start inside a text that lacks its first character. *)
Lemma occurrences_skip (c : ascii) (pat s t : string) :
  absent c s = true ->
  occurrences (String c pat) (s ++ t) = occurrences (String c pat) t.
Proof.
  unfold absent; induction s as [|d s IH]; simpl; [reflexivity |].
  intros H; apply andb_true_iff in H as [Hd Hs].
  apply negb_true_iff, Ascii.eqb_neq in Hd.
  destruct (ascii_dec c d) as [->|_]; [contradiction |].
  now rewrite (IH Hs).
Qed.

(* ================================================================== *)
(** * Decimal rendering *)

Lemma N_of_digit_char (d : N) :
  (d < 10)%N -> N_of_ascii (digit_char d) = (48 + d)%N.
Proof. intros H; unfold digit_char; apply N_ascii_embedding; lia. Qed.

Lemma digit_char_is_digit (d : N) :
  (d < 10)%N -> is_digit (digit_char d) = true.
Proof.
  intros H; unfold is_digit; rewrite (N_of_digit_char H).
  apply andb_true_iff; split; apply N.leb_le; lia.
Qed.

Lemma decimal_aux_digits (fuel : nat) :
  forall n acc, all_digits acc = true ->
                all_digits (decimal_aux fuel n acc) = true.
Proof.
  induction fuel as [|fuel IH]; intros n acc Hacc; simpl; [exact Hacc |].
  assert (Hstep : all_digits (String (digit_char (n mod 10)) acc) = true).
  { unfold all_digits; simpl; fold (all_digits acc); rewrite Hacc.
    rewrite digit_char_is_digit; [reflexivity | apply N.mod_lt; lia]. }
  destruct (n / 10 =? 0)%N; [exact Hstep | now apply IH].
Qed.

Lemma decimal_digits (n : N) : all_digits (decimal n) = true.
Proof. now apply decimal_aux_digits. Qed.




Lemma show_int_nonneg (z : Z) : 0 <= z -> show_int z = decimal (Z.to_N z).
Proof.
  intros H; unfold show_int.
  destruct (z <? 0) eqn:E; [apply Z.ltb_lt in E; lia | reflexivity].
Qed.

Lemma show_uint32_int (z : Z) : 0 <= z < 2 ^ 32 -> show_uint32 z = show_int z.
Proof.
  intros H; unfold show_uint32; rewrite Z.mod_small by exact H.
  symmetry; apply show_int_nonneg; lia.
Qed.

Lemma digit_stamp_char (c : ascii) : is_digit c = true -> stamp_char c = true.
Proof. intros H; unfold stamp_char; now rewrite H. Qed.

Lemma show_int_chars (z : Z) : forall_chars stamp_char (show_int z) = true.
Proof.
  assert (D : forall n, forall_chars stamp_char (decimal n) = true).
  { intros n; apply forall_chars_weaken with (p := is_digit);
      [exact digit_stamp_char | apply decimal_digits]. }
  unfold show_int; destruct (z <? 0); [| apply D].
  cbn [append forall_chars]; now rewrite D.
Qed.

Lemma setw_setfill_chars (p : ascii -> bool) (w : nat) (c : ascii)
    (s : string) :
  p c = true -> forall_chars p s = true ->
  forall_chars p (setw_setfill w c s) = true.
Proof.
  intros Hc Hs; unfold setw_setfill.
  now rewrite forall_chars_app, forall_chars_repeat, Hs.
Qed.

Lemma put_time_T_chars (t : tm) : forall_chars stamp_char (put_time_T t) = true.
Proof.
  unfold put_time_T.
  repeat (rewrite forall_chars_app
          || rewrite setw_setfill_chars
               by (reflexivity || apply show_int_chars)).
  reflexivity.
Qed.






(** On counts from zero up to the last one below 2^52, the double
    arithmetic of the headers prints what [fixed3] prints; two counts above
    2^53 show where they part. *)
Example fixed3_agrees_with_double :
  forallb (fun us => String.eqb (fixed3_double (double_ms us)) (fixed3 us))
          [0; 1; 5; 499; 500; 999; 1000; 1001; 1234567; 86400000000;
           999999999999; 2 ^ 52 - 1; -5; -1500]
  = true
  /\ fixed3_double (double_ms (2 ^ 53 + 3)) = "9007199254740.996"
  /\ fixed3 (2 ^ 53 + 3) = "9007199254740.995".
Proof. vm_compute; repeat split. Qed.


(* ================================================================== *)
(** * Running the two headers *)

Ltac run_timestamp :=
  intros; unfold Cpp11.timestamp, Cpp23.timestamp, bind, system_clock_now,
    localtime_r, ret; reflexivity.

Lemma timestamp11_run {U : Type} (w : World U) :
  Cpp11.timestamp w
  = (let now := system_clock w (system_reads w) in
     put_time_T (localtime w (to_time_t now)) ++ "."
       ++ setw_setfill 3 "0"
            (show_int (Z.rem (duration_cast_milliseconds now) 1000)),
     tick_system w).
Proof. run_timestamp. Qed.

Lemma timestamp_agree {U : Type} (w : World U) :
  Cpp23.timestamp w = Cpp11.timestamp w.
Proof. reflexivity. Qed.

Lemma timestamp11_chars {U : Type} (w : World U) :
  forall_chars stamp_char (fst (Cpp11.timestamp w)) = true.
Proof.
  rewrite timestamp11_run; cbn [fst]; cbv zeta.
  rewrite forall_chars_app, put_time_T_chars.
  cbn [append forall_chars]; rewrite setw_setfill_chars;
    [reflexivity | reflexivity | apply show_int_chars].
Qed.

(** Bring both sides of an equation between texts to the same shape. *)
Ltac norm_text :=
  unfold RESET, ESC, NL;
  repeat (progress (rewrite ?append_assoc, ?append_nil_r; cbn [append])).

Ltac run_ctor :=
  intros level category w;
  unfold Cpp11.Logger_ctor, Cpp23.Logger_ctor, bind, ret;
  destruct (Cpp11.timestamp w) as [ts w'] eqn:Ets;
  try (rewrite timestamp_agree, Ets);
  pose proof (f_equal snd Ets) as Hw;
  rewrite timestamp11_run in Hw; cbn [snd] in Hw; subst w';
  cbn [fst]; f_equal; f_equal;
  destruct category; cbn [String.length Nat.eqb String.eqb];
  norm_text; reflexivity.

Lemma Logger11_ctor_run {U : Type} :
  forall (level : level_t) (category : string) (w : World U),
    Cpp11.Logger_ctor level category w
    = (Cpp11.mk_Logger
         ("[" ++ fst (Cpp11.timestamp w) ++ "]["
              ++ Cpp11.colorCode level ++ Cpp11.levelLabel level
              ++ RESET ++ "]"
              ++ (if String.eqb category "" then ""
                  else "[" ++ category ++ "]")
              ++ " "),
       tick_system w).
Proof. run_ctor. Qed.

Lemma Logger23_ctor_run {U : Type} :
  forall (level : level_t) (category : string) (w : World U),
    Cpp23.Logger_ctor level category w
    = (Cpp23.mk_Logger
         ("[" ++ fst (Cpp23.timestamp w) ++ "]["
              ++ Cpp23.colorCode level ++ Cpp23.levelLabel level
              ++ RESET ++ "]"
              ++ (if String.eqb category "" then ""
                  else "[" ++ category ++ "]")
              ++ " "),
       tick_system w).
Proof. run_ctor. Qed.

Ltac run_stream :=
  intros ops; induction ops as [|[T HT e] ops IH]; intros self w;
  [ cbn; rewrite append_nil_r; now destruct self
  | cbn [Cpp11.stream_operands Cpp23.stream_operands operand_texts];
    unfold bind; destruct (e w) as [v w1];
    rewrite IH; destruct (operand_texts ops w1) as [texts w2];
    cbn; now rewrite append_assoc ].

Lemma stream11_run {U : Type} :
  forall (ops : list (Operand U)) (self : Cpp11.Logger) (w : World U),
    Cpp11.stream_operands self ops w
    = (Cpp11.mk_Logger
         (Cpp11.m_stream self ++ concat_texts (fst (operand_texts ops w))),
       snd (operand_texts ops w)).
Proof. run_stream. Qed.

Lemma stream23_run {U : Type} :
  forall (ops : list (Operand U)) (self : Cpp23.Logger) (w : World U),
    Cpp23.stream_operands self ops w
    = (Cpp23.mk_Logger
         (Cpp23.m_stream self ++ concat_texts (fst (operand_texts ops w))),
       snd (operand_texts ops w)).
Proof. run_stream. Qed.

Lemma Logger11_dtor_run {U : Type} (self : Cpp11.Logger) (w : World U) :
  Cpp11.Logger_dtor self w
  = (tt, inserted NL (inserted (Cpp11.m_stream self ++ RESET) w)).
Proof. reflexivity. Qed.

Lemma Logger23_dtor_run {U : Type} (self : Cpp23.Logger) (w : World U) :
  Cpp23.Logger_dtor self w
  = (tt, inserted NL (inserted (Cpp23.m_stream self ++ RESET) w)).
Proof. reflexivity. Qed.

Ltac run_statement :=
  intros;
  unfold Cpp11.log_statement, Cpp23.log_statement;
  unfold bind at 1;
  rewrite ?Logger11_ctor_run, ?Logger23_ctor_run;
  unfold bind at 1;
  rewrite ?stream11_run, ?stream23_run;
  rewrite ?Logger11_dtor_run, ?Logger23_dtor_run;
  cbn [fst snd Cpp11.m_stream Cpp23.m_stream];
  now rewrite !append_assoc.

(** A whole statement: header, operands in order, reset; then the
    newline. *)
Lemma log_statement11_run {U : Type} (level : Level) (category : string)
    (ops : list (Operand U)) (w : World U) :
  Cpp11.log_statement level category ops w
  = (tt,
     let texts := operand_texts ops (tick_system w) in
     inserted NL
       (inserted
          (Cpp11.m_stream
             (fst (Cpp11.Logger_ctor (enumerator level) category w))
             ++ concat_texts (fst texts) ++ RESET)
          (snd texts))).
Proof. run_statement. Qed.

Lemma log_statement23_run {U : Type} (level : Level) (category : string)
    (ops : list (Operand U)) (w : World U) :
  Cpp23.log_statement level category ops w
  = (tt,
     let texts := operand_texts ops (tick_system w) in
     inserted NL
       (inserted
          (Cpp23.m_stream
             (fst (Cpp23.Logger_ctor (enumerator level) category w))
             ++ concat_texts (fst texts) ++ RESET)
          (snd texts))).
Proof. run_statement. Qed.

Lemma timestamp11_steady {U : Type} (w : World U) :
  fst (Cpp11.timestamp (tick_steady w)) = fst (Cpp11.timestamp w).
Proof. reflexivity. Qed.

(** The log statement inside the constructor and the destructor of a timer,
    once the message is known. *)
Ltac run_profiling :=
  unfold Cpp11.log_profiling, Cpp11.log_macro,
         Cpp23.log_profiling, Cpp23.log_macro;
  rewrite ?log_statement11_run, ?log_statement23_run;
  rewrite ?Logger11_ctor_run, ?Logger23_ctor_run;
  cbn [fst snd value operand_texts];
  unfold bind, ret;
  cbn [fst snd concat_texts fold_right Cpp11.m_stream Cpp23.m_stream
       Cpp11.m_tag Cpp11.m_file_name Cpp11.m_line Cpp11.m_start
       Cpp23.m_tag Cpp23.m_file_name Cpp23.m_line Cpp23.m_start];
  unfold logged, profile_header, insert_text, Insertable_string, format;
  change (Cpp11.colorCode (enumerator Profile)) with (ESC ++ "[1;36m");
  change (Cpp11.levelLabel (enumerator Profile)) with "PROFILING";
  change (Cpp23.colorCode (enumerator Profile)) with (ESC ++ "[1;36m");
  change (Cpp23.levelLabel (enumerator Profile)) with "PROFILING";
  cbn [String.eqb format_scan Ascii.eqb Bool.eqb format_field append];
  norm_text;
  rewrite ?timestamp11_steady.

Lemma ScopeLogger11_ctor_run {U : Type} (tag file : string) (line : Z)
    (w : World U) :
  Cpp11.ScopeLogger_ctor false tag file line w
  = (Cpp11.mk_ScopeLogger tag file line (steady_clock w (steady_reads w)),
     logged (profile_header (fst (Cpp11.timestamp w)) ++ "START " ++ tag
               ++ " @ " ++ file ++ ":" ++ show_int line ++ RESET)
            (tick_steady w)).
Proof.
  unfold Cpp11.ScopeLogger_ctor.
  unfold bind at 1, steady_clock_now; unfold bind at 1.
  run_profiling; reflexivity.
Qed.

Lemma ScopeLogger23_ctor_run {U : Type} (tag file : string) (line : Z)
    (w : World U) :
  Cpp23.ScopeLogger_ctor false tag file line w
  = (Cpp23.mk_ScopeLogger tag file line (steady_clock w (steady_reads w)),
     logged (profile_header (fst (Cpp23.timestamp w)) ++ "START " ++ tag
               ++ " @ " ++ file ++ ":" ++ show_uint32 line ++ RESET)
            (tick_steady w)).
Proof.
  unfold Cpp23.ScopeLogger_ctor.
  unfold bind at 1, steady_clock_now; unfold bind at 1.
  run_profiling; reflexivity.
Qed.

Lemma ScopeLogger11_dtor_run {U : Type} (self : Cpp11.ScopeLogger)
    (w : World U) :
  Cpp11.ScopeLogger_dtor false self w
  = (tt,
     logged (profile_header (fst (Cpp11.timestamp w))
               ++ leave_word (uncaught w) ++ " " ++ Cpp11.m_tag self ++ " ("
               ++ fixed3 (duration_cast_microseconds
                            (steady_clock w (steady_reads w)
                             - Cpp11.m_start self))
               ++ "ms) @ " ++ Cpp11.m_file_name self ++ ":"
               ++ show_int (Cpp11.m_line self) ++ RESET)
            (tick_steady w)).
Proof.
  unfold Cpp11.ScopeLogger_dtor.
  unfold bind at 1, steady_clock_now; unfold bind at 1, uncaught_exception.
  cbn [uncaught tick_steady]; unfold leave_word.
  destruct (uncaught w) as [|pending]; cbn [Nat.eqb negb];
    run_profiling; reflexivity.
Qed.

Lemma ScopeLogger23_dtor_run {U : Type} (self : Cpp23.ScopeLogger)
    (w : World U) :
  Cpp23.ScopeLogger_dtor false self w
  = (tt,
     logged (profile_header (fst (Cpp23.timestamp w))
               ++ leave_word (uncaught w) ++ " " ++ Cpp23.m_tag self ++ " ("
               ++ fixed3 (duration_cast_microseconds
                            (steady_clock w (steady_reads w)
                             - Cpp23.m_start self))
               ++ "ms) @ " ++ Cpp23.m_file_name self ++ ":"
               ++ show_uint32 (Cpp23.m_line self) ++ RESET)
            (tick_steady w)).
Proof.
  unfold Cpp23.ScopeLogger_dtor.
  unfold bind at 1, steady_clock_now; unfold bind at 1, uncaught_exceptions.
  cbn [uncaught tick_steady]; unfold leave_word.
  destruct (uncaught w) as [|pending]; cbn [Nat.eqb Z.of_nat Z.eqb];
    run_profiling; reflexivity.
Qed.

(* ================================================================== *)
(** * The severity table *)

Lemma switch_case_default (v : level_t) :
  v < enumerator Trace \/ enumerator Profile < v -> switch_case v = None.
Proof.
  intros H; unfold switch_case, all_levels; cbn [find enumerator] in *.
  repeat match goal with
         | |- context [?a =? v] =>
             destruct (Z.eqb_spec a v); [lia |]
         end.
  reflexivity.
Qed.

(** C2.  For each of the ten levels, [levelLabel] returns the label of the
    table of section 4.1 and [colorCode] a colour sequence with the meaning
    the table gives (bold white for Trace, [ESC[1;41;97m], red background
    with bright white text, for Emergency); every label is nine characters
    long.  Both are functions of the level alone, in both headers. *)
Theorem level_table (l : Level) :
  (Cpp11.levelLabel (enumerator l) = Spec.label l
   /\ String.length (Cpp11.levelLabel (enumerator l)) = 9%nat
   /\ Spec.has_color (Spec.color l) (Cpp11.colorCode (enumerator l)) = true)
  /\ (Cpp23.levelLabel (enumerator l) = Spec.label l
      /\ String.length (Cpp23.levelLabel (enumerator l)) = 9%nat
      /\ Spec.has_color (Spec.color l) (Cpp23.colorCode (enumerator l)) = true)
  /\ Cpp11.colorCode (enumerator Trace) = ESC ++ "[1;37m"
  /\ Cpp11.colorCode (enumerator Emergency) = ESC ++ "[1;41;97m".
Proof. destruct l; vm_compute; repeat split. Qed.

(** The comparison of colours tells the rows of the table apart: the
    sequence of Debug is not bright white, that of Emergency is more than a
    red background, and the reset sequence is no colour of the table. *)
Example colors_told_apart :
  Spec.has_color (Spec.Bright Spec.White) (Cpp11.colorCode (enumerator Debug))
  = false
  /\ Spec.has_color Spec.RedBackground (Cpp11.colorCode (enumerator Emergency))
     = false
  /\ existsb (fun l => Spec.has_color (Spec.color l) RESET) all_levels = false.
Proof. vm_compute; repeat split. Qed.

(** C10.  For a value of type [Level] that is none of the ten enumerators,
    [levelLabel] returns the nine characters [" UNKNOWN "] and [colorCode]
    the reset sequence, so the constructor of [Logger] still renders a
    header, with these two in the level bracket. *)
Theorem unnamed_level_placeholder (v : level_t) :
  v < enumerator Trace \/ enumerator Profile < v ->
  (Cpp11.levelLabel v = " UNKNOWN "
   /\ Cpp11.colorCode v = ESC ++ "[0m"
   /\ Cpp23.levelLabel v = " UNKNOWN "
   /\ Cpp23.colorCode v = ESC ++ "[0m")
  /\ String.length (Cpp11.levelLabel v) = 9%nat
  /\ forall (U : Type) (category : string) (w : World U),
       Cpp11.m_stream (fst (Cpp11.Logger_ctor v category w))
       = "[" ++ fst (Cpp11.timestamp w) ++ "][" ++ RESET ++ " UNKNOWN "
             ++ RESET ++ "]"
             ++ (if String.eqb category "" then ""
                 else "[" ++ category ++ "]") ++ " "
       /\ Cpp23.m_stream (fst (Cpp23.Logger_ctor v category w))
          = Cpp11.m_stream (fst (Cpp11.Logger_ctor v category w)).
Proof.
  intros Hv; pose proof (switch_case_default Hv) as Hd.
  unfold Cpp11.levelLabel, Cpp11.colorCode, Cpp23.levelLabel,
    Cpp23.colorCode; rewrite Hd.
  repeat split; try reflexivity.
  rewrite Logger11_ctor_run; cbn [fst Cpp11.m_stream].
  unfold Cpp11.levelLabel, Cpp11.colorCode; rewrite Hd.
  norm_text; reflexivity.
Qed.

Lemma unnamed_level_placeholder_witness :
  Cpp11.levelLabel 10 = " UNKNOWN " /\ Cpp23.colorCode (-1) = ESC ++ "[0m".
Proof.
  split.
  - apply (unnamed_level_placeholder (v := 10)); right; reflexivity.
  - apply (unnamed_level_placeholder (v := -1)); left; reflexivity.
Defined.

(* ================================================================== *)
(** * The header *)

Lemma stamp_char_absent (c : ascii) (s : string) :
  stamp_char c = false -> forall_chars stamp_char s = true -> absent c s = true.
Proof.
  intros Hc; apply forall_chars_weaken; intros d Hd.
  apply negb_true_iff, Ascii.eqb_neq; intros ->; congruence.
Qed.

Lemma stamp_not_prefixed (c : ascii) (pat ts rest : string) :
  stamp_char c = false -> forall_chars stamp_char ts = true ->
  prefix (String c pat) rest = false ->
  prefix (String c pat) (ts ++ rest) = false.
Proof.
  intros Hc Hts Hrest; destruct ts as [|d ts]; [exact Hrest |].
  cbn [append prefix]; cbn [forall_chars] in Hts.
  apply andb_true_iff in Hts as [Hd _].
  destruct (ascii_dec c d) as [->|_]; [congruence | reflexivity].
Qed.

Lemma bracket_counts (ts : string) (level : level_t) :
  forall_chars stamp_char ts = true ->
  let pre := "[" ++ ts ++ "][" ++ Cpp11.colorCode level
                 ++ Cpp11.levelLabel level ++ RESET ++ "]" in
  count_char "]" (pre ++ " ") = 2%nat
  /\ count_char "]" (pre ++ "[net]" ++ " ") = 3%nat
  /\ occurrences "[net]" (pre ++ "[net]" ++ " ") = 1%nat.
Proof.
  intros Hts pre; subst pre.
  pose proof (stamp_char_absent "]" ts eq_refl Hts) as Hclose.
  pose proof (stamp_char_absent "[" ts eq_refl Hts) as Hopen.
  rewrite !append_assoc.
  repeat split.
  - cbn [append count_char Ascii.eqb Bool.eqb].
    rewrite count_char_app, (count_char_absent _ _ Hclose).
    unfold Cpp11.colorCode, Cpp11.levelLabel.
    destruct (switch_case level) as [[]|]; reflexivity.
  - cbn [append count_char Ascii.eqb Bool.eqb].
    rewrite count_char_app, (count_char_absent _ _ Hclose).
    unfold Cpp11.colorCode, Cpp11.levelLabel.
    destruct (switch_case level) as [[]|]; reflexivity.
  - cbn [append]. cbn [occurrences].
    rewrite occurrences_skip by exact Hopen.
    replace (prefix "[net]" _) with false.
    + unfold Cpp11.colorCode, Cpp11.levelLabel.
      destruct (switch_case level) as [[]|]; reflexivity.
    + symmetry; cbn [prefix].
      destruct (ascii_dec "[" "[") as [_|N]; [| congruence].
      apply stamp_not_prefixed; [reflexivity | exact Hts | reflexivity].
Qed.

Lemma Logger_ctor_agree {U : Type} (level : level_t) (category : string)
    (w : World U) :
  Cpp23.m_stream (fst (Cpp23.Logger_ctor level category w))
  = Cpp11.m_stream (fst (Cpp11.Logger_ctor level category w))
  /\ snd (Cpp23.Logger_ctor level category w)
     = snd (Cpp11.Logger_ctor level category w).
Proof. rewrite Logger11_ctor_run, Logger23_ctor_run; split; reflexivity. Qed.

(** C4.  The constructor of [Logger] leaves in the buffer exactly
    [[<timestamp>][<color><label><reset>]], then [[<category>]] when the
    category is not empty, then one space, and writes nothing to
    [std::clog].  For the category [""] the header has the two closing
    brackets of the time stamp and of the level and ends with ["] "] after
    the reset; for the category ["net"] it has three and [[net]] occurs in
    it once.  The same in both headers. *)
Theorem header_rendered (U : Type) (w : World U) (level : level_t) :
  let header category :=
    Cpp11.m_stream (fst (Cpp11.Logger_ctor level category w)) in
  let bracket := "[" ++ fst (Cpp11.timestamp w) ++ "]["
                     ++ Cpp11.colorCode level ++ Cpp11.levelLabel level
                     ++ RESET ++ "]" in
  (forall category,
      header category
      = bracket ++ (if String.eqb category "" then ""
                    else "[" ++ category ++ "]") ++ " "
      /\ clog (snd (Cpp11.Logger_ctor level category w)) = clog w
      /\ Cpp23.m_stream (fst (Cpp23.Logger_ctor level category w))
         = header category
      /\ clog (snd (Cpp23.Logger_ctor level category w)) = clog w)
  /\ header "" = bracket ++ " "
  /\ count_char "]" (header "") = 2%nat
  /\ header "net" = bracket ++ "[net] "
  /\ count_char "]" (header "net") = 3%nat
  /\ occurrences "[net]" (header "net") = 1%nat.
Proof.
  intros header bracket.
  assert (Hh : forall category,
             header category
             = bracket ++ (if String.eqb category "" then ""
                           else "[" ++ category ++ "]") ++ " ").
  { intros category; subst header bracket; cbv beta.
    rewrite Logger11_ctor_run; cbn [fst Cpp11.m_stream].
    now rewrite !append_assoc. }
  destruct (@bracket_counts _ level (timestamp11_chars w)) as (C0 & C1 & C2).
  split; [| rewrite !Hh; cbn [String.eqb Ascii.eqb Bool.eqb]; auto].
  intros category; split; [apply Hh |].
  destruct (Logger_ctor_agree level category w) as [Hm Hw].
  rewrite Hm, Hw; fold (header category).
  rewrite Logger11_ctor_run; repeat split.
Qed.

(* ================================================================== *)
(** * The time stamp *)



(** The reading of the sample host has five milliseconds: they are
    rendered [005]. *)
Example timestamp_five_milliseconds :
  fst (Cpp11.timestamp example_world) = "22:13:20.005"
  /\ fst (Cpp23.timestamp example_world) = "22:13:20.005".
Proof. split; vm_compute; reflexivity. Qed.

(* ================================================================== *)
(** * Log statements *)

(** C6.  With [NDEBUG] defined, a statement made with any of the ten level
    macros returns at once in the world it started in: nothing is inserted
    into [std::clog], the system clock is not read (no [Logger] is
    constructed) and no operand is evaluated, whatever its effect would be.
    A block that starts with [log_profile] is the rest of the block alone.
    The same in both headers. *)
Theorem inert_statements (U : Type) (category : string)
    (ops : list (Operand U)) (w : World U) :
  (Cpp11.log_trace true category ops w = (tt, w)
   /\ Cpp11.log_debug true category ops w = (tt, w)
   /\ Cpp11.log_info true category ops w = (tt, w)
   /\ Cpp11.log_notice true category ops w = (tt, w)
   /\ Cpp11.log_warning true category ops w = (tt, w)
   /\ Cpp11.log_error true category ops w = (tt, w)
   /\ Cpp11.log_critical true category ops w = (tt, w)
   /\ Cpp11.log_alert true category ops w = (tt, w)
   /\ Cpp11.log_emergency true category ops w = (tt, w)
   /\ Cpp11.log_profiling true category ops w = (tt, w))
  /\ (Cpp23.log_trace true category ops w = (tt, w)
      /\ Cpp23.log_debug true category ops w = (tt, w)
      /\ Cpp23.log_info true category ops w = (tt, w)
      /\ Cpp23.log_notice true category ops w = (tt, w)
      /\ Cpp23.log_warning true category ops w = (tt, w)
      /\ Cpp23.log_error true category ops w = (tt, w)
      /\ Cpp23.log_critical true category ops w = (tt, w)
      /\ Cpp23.log_alert true category ops w = (tt, w)
      /\ Cpp23.log_emergency true category ops w = (tt, w)
      /\ Cpp23.log_profiling true category ops w = (tt, w))
  /\ forall (A : Type) (tag file : string) (line : Z) (rest : M U A),
       Cpp11.log_profile true tag file line rest w = rest w
       /\ Cpp23.log_profile true tag file line rest w = rest w.
Proof. repeat split. Qed.

(** The operand [counter++] is executed by an active statement and not by
    an inert one. *)
Example side_effect_only_when_active :
  host (snd (Cpp11.log_info false "" [operand _ post_increment]
               example_world)) = 1%nat
  /\ host (snd (Cpp11.log_info true "" [operand _ post_increment]
                  example_world)) = 0%nat
  /\ clog (snd (Cpp11.log_info true "" [operand _ post_increment]
                  example_world)) = []
  /\ host (snd (Cpp23.log_info false "" [operand _ post_increment]
                  example_world)) = 1%nat
  /\ host (snd (Cpp23.log_info true "" [operand _ post_increment]
                  example_world)) = 0%nat.
Proof. repeat split. Qed.

Lemma concat_texts_app (xs ys : list string) :
  concat_texts (xs ++ ys) = concat_texts xs ++ concat_texts ys.
Proof.
  induction xs as [|x xs IH]; cbn; [reflexivity |].
  fold (concat_texts (xs ++ ys)); fold (concat_texts xs).
  now rewrite IH, append_assoc.
Qed.

(** C5, as the code has it.  [operator<<] appends to the buffer exactly the
    text of its operand.  A statement writes nothing to [std::clog] until
    its [Logger] dies; the destructor then makes two insertions, one after
    the other: the buffer followed by the reset sequence, and the newline
    character.  The text that reaches the stream is the header, the texts
    of the operands in their order, the reset sequence and one newline.  The
    same in both headers. *)
Theorem statement_emission (U : Type) (level : Level) (category : string)
    (ops : list (Operand U)) (w : World U) :
  let built := Cpp11.Logger_ctor (enumerator level) category w in
  let texts := operand_texts ops (snd built) in
  let line := Cpp11.m_stream (fst built) ++ concat_texts (fst texts)
                ++ RESET in
  let final := snd (Cpp11.log_statement level category ops w) in
  (forall (T : Type) (I : Insertable T) (self : Cpp11.Logger) (v : T),
      Cpp11.m_stream (Cpp11.Logger_shl self v)
      = Cpp11.m_stream self ++ insert_text v)
  /\ (forall (T : Type) (I : Insertable T) (self : Cpp23.Logger) (v : T),
         Cpp23.m_stream (Cpp23.Logger_shl self v)
         = Cpp23.m_stream self ++ insert_text v)
  /\ clog (snd built) = clog w
  /\ clog final = (clog (snd texts) ++ [line; NL])%list
  /\ concat_texts (clog final)
     = concat_texts (clog (snd texts)) ++ line ++ NL
  /\ snd (Cpp23.log_statement level category ops w) = final.
Proof.
  intros built texts line final; subst final line texts built.
  rewrite log_statement11_run, log_statement23_run.
  destruct (Logger_ctor_agree (enumerator level) category w) as [Hm _].
  rewrite Hm, Logger11_ctor_run; cbn [fst snd clog inserted tick_system].
  repeat split.
  - now rewrite <- app_assoc.
  - rewrite <- app_assoc, concat_texts_app; f_equal.
Qed.

(** C5, as the specification words it, fails: the line and its newline are
    not handed to [std::clog] in one call.  After [log_info(net) << "up";]
    the stream has received two insertions. *)
Lemma line_and_newline_inserted_apart :
  clog (snd (Cpp11.log_info false "net" [value "up"] example_world))
  = ["[22:13:20.005][" ++ ESC ++ "[1;32m  INFO   " ++ RESET ++ "][net] up"
       ++ RESET;
     NL]
  /\ clog (snd (Cpp23.log_info false "net" [value "up"] example_world))
     = clog (snd (Cpp11.log_info false "net" [value "up"] example_world))
  /\ ~ (exists whole_line,
          clog (snd (Cpp11.log_info false "net" [value "up"] example_world))
          = [whole_line ++ NL]).
Proof.
  repeat split.
  intros [whole_line H]; vm_compute in H; discriminate H.
Qed.

(* ================================================================== *)
(** * The scope timer *)



Lemma logged_length (U : Type) (line : string) (w : World U) :
  List.length (clog (logged line w)) = (List.length (clog w) + 2)%nat.
Proof.
  unfold logged; cbn [clog inserted tick_system].
  rewrite !length_app; cbn [List.length]; lia.
Qed.

(** A block that starts with [log_profile] emits the START line before the
    rest of the block runs and one leave line after it, on either exit. *)
Lemma profiled_block_records (U A : Type) (tag file : string) (line : Z)
    (rest : M U A) (w : World U) :
  let started := snd (Cpp11.ScopeLogger_ctor false tag file line w) in
  let left := snd (rest started) in
  List.length (clog started) = (List.length (clog w) + 2)%nat
  /\ List.length (clog (snd (Cpp11.log_profile false tag file line rest w)))
     = (List.length (clog left) + 2)%nat
  /\ fst (Cpp11.log_profile false tag file line rest w) = fst (rest started).
Proof.
  intros started left; subst left started.
  unfold Cpp11.log_profile, bind.
  rewrite ScopeLogger11_ctor_run; cbn [fst snd].
  destruct (rest _) as [r w2].
  rewrite ScopeLogger11_dtor_run; cbn [fst snd ret].
  rewrite !logged_length; repeat split; reflexivity.
Qed.

(** A timer that is moved is destroyed twice, once as the new object and
    once as the object moved from, and each destruction emits a line. *)
Lemma moved_block_records (U A : Type) (left_tag left_file tag file : string)
    (line : Z) (rest : M U A) (w : World U) :
  let started11 := snd (Cpp11.ScopeLogger_ctor false tag file line w) in
  let started23 := snd (Cpp23.ScopeLogger_ctor false tag file line w) in
  List.length
    (clog (snd (Cpp11.moved_block false left_tag left_file tag file line
                  rest w)))
  = (List.length (clog (snd (rest started11))) + 4)%nat
  /\ List.length
       (clog (snd (Cpp23.moved_block false tag file line rest w)))
     = (List.length (clog (snd (rest started23))) + 4)%nat.
Proof.
  intros started11 started23; subst started11 started23.
  unfold Cpp11.moved_block, Cpp23.moved_block, bind.
  rewrite ScopeLogger11_ctor_run, ScopeLogger23_ctor_run; cbn [fst snd].
  split; destruct (rest _) as [r w2];
    cbn [Cpp11.ScopeLogger_move Cpp23.ScopeLogger_move];
    rewrite ?ScopeLogger11_dtor_run, ?ScopeLogger23_dtor_run;
    rewrite ?ScopeLogger11_dtor_run, ?ScopeLogger23_dtor_run;
    cbn [fst snd ret];
    repeat (progress (rewrite ?logged_length; cbn [clog tick_steady]));
    lia.
Qed.

(** C1, at the input where the code departs from it.  The block
    [{ ScopeLogger a("work", "main.cpp", 42); ScopeLogger b(std::move(a)); }]
    emits one START line and two FINISH lines: the move constructor is the
    defaulted one, so the object moved from still runs its destructor (in
    the first header with the strings the move left in it, taken empty
    here). *)
Theorem moved_timer_finishes_twice :
  clog (snd (Cpp11.moved_block false "" "" "work" "main.cpp" 42 (ret tt)
               example_world))
  = [profile_header "22:13:20.005" ++ "START work @ main.cpp:42" ++ RESET;
     NL;
     profile_header "22:13:20.008"
       ++ "FINISH work (1.234ms) @ main.cpp:42" ++ RESET;
     NL;
     profile_header "22:13:20.011" ++ "FINISH  (2.469ms) @ :42" ++ RESET;
     NL]
  /\ clog (snd (Cpp23.moved_block false "work" "main.cpp" 42 (ret tt)
                  example_world))
     = [profile_header "22:13:20.005" ++ "START work @ main.cpp:42"
          ++ RESET;
        NL;
        profile_header "22:13:20.008"
          ++ "FINISH work (1.234ms) @ main.cpp:42" ++ RESET;
        NL;
        profile_header "22:13:20.011"
          ++ "FINISH work (2.469ms) @ main.cpp:42" ++ RESET;
        NL].
Proof. split; vm_compute; reflexivity. Qed.

(** ** Failure inside the destructor *)



(* ================================================================== *)
(** * The two headers side by side *)

Lemma log_macro_agree (U : Type) (level : Level) (NDEBUG : bool)
    (category : string) (ops : list (Operand U)) (w : World U) :
  Cpp23.log_macro level NDEBUG category ops w
  = Cpp11.log_macro level NDEBUG category ops w.
Proof.
  unfold Cpp11.log_macro, Cpp23.log_macro; destruct NDEBUG; [reflexivity |].
  rewrite log_statement11_run, log_statement23_run.
  destruct (Logger_ctor_agree (enumerator level) category w) as [-> _].
  reflexivity.
Qed.

(** C9.  The two headers behave alike.  [levelLabel] and [colorCode] agree
    on every value; the constructor, [operator<<] and the destructor of
    [Logger] produce the same buffer and the same world from the same
    clock; so does every log statement, with or without [NDEBUG]; and for a
    line number that both an [int] and a [uint32_t] hold, the constructor
    and the destructor of [ScopeLogger] leave the same world, hence emit the
    same START and leave lines from the same tag, file, line, clocks and
    count of uncaught exceptions ([uncaught_exception()] holds exactly when
    [uncaught_exceptions()] is not zero). *)
Theorem headers_agree (U : Type) (w : World U) (NDEBUG : bool)
    (tag file : string) (line start : Z) :
  0 <= line <= int_max ->
  (forall v : level_t,
      Cpp11.levelLabel v = Cpp23.levelLabel v
      /\ Cpp11.colorCode v = Cpp23.colorCode v)
  /\ (forall (level : level_t) (category : string),
         Cpp11.m_stream (fst (Cpp11.Logger_ctor level category w))
         = Cpp23.m_stream (fst (Cpp23.Logger_ctor level category w))
         /\ snd (Cpp11.Logger_ctor level category w)
            = snd (Cpp23.Logger_ctor level category w))
  /\ (forall (T : Type) (I : Insertable T) (buffer : string) (v : T),
         Cpp11.m_stream (Cpp11.Logger_shl (Cpp11.mk_Logger buffer) v)
         = Cpp23.m_stream (Cpp23.Logger_shl (Cpp23.mk_Logger buffer) v))
  /\ (forall buffer : string,
         Cpp11.Logger_dtor (Cpp11.mk_Logger buffer) w
         = Cpp23.Logger_dtor (Cpp23.mk_Logger buffer) w)
  /\ (forall (level : Level) (category : string) (ops : list (Operand U)),
         Cpp11.log_macro level NDEBUG category ops w
         = Cpp23.log_macro level NDEBUG category ops w)
  /\ snd (Cpp11.ScopeLogger_ctor NDEBUG tag file line w)
     = snd (Cpp23.ScopeLogger_ctor NDEBUG tag file line w)
  /\ Cpp11.ScopeLogger_dtor NDEBUG (Cpp11.mk_ScopeLogger tag file line start) w
     = Cpp23.ScopeLogger_dtor NDEBUG
         (Cpp23.mk_ScopeLogger tag file line start) w.
Proof.
  intros Hline.
  assert (Hshow : show_uint32 line = show_int line).
  { apply show_uint32_int; unfold int_max in Hline; lia. }
  repeat split; try reflexivity;
    try (symmetry; apply Logger_ctor_agree);
    try (symmetry; apply log_macro_agree).
  - destruct NDEBUG; [reflexivity |].
    rewrite ScopeLogger11_ctor_run, ScopeLogger23_ctor_run; cbn [snd].
    now rewrite Hshow.
  - destruct NDEBUG; [reflexivity |].
    rewrite ScopeLogger11_dtor_run, ScopeLogger23_dtor_run.
    cbn [Cpp11.m_tag Cpp11.m_file_name Cpp11.m_line Cpp11.m_start
         Cpp23.m_tag Cpp23.m_file_name Cpp23.m_line Cpp23.m_start].
    now rewrite Hshow.
Qed.

Lemma headers_agree_witness :
  Cpp11.ScopeLogger_dtor false
    (Cpp11.mk_ScopeLogger "work" "main.cpp" 42 1000) unwinding_world
  = Cpp23.ScopeLogger_dtor false
      (Cpp23.mk_ScopeLogger "work" "main.cpp" 42 1000) unwinding_world.
Proof.
  apply (@headers_agree nat unwinding_world false "work" "main.cpp" 42 1000).
  vm_compute; split; discriminate.
Defined.

(* ================================================================== *)
(** * Further properties of the two headers *)

(** ** Levels and macros *)

(** X1.  The label tells the level: two values of type [Level] get the same
    label exactly when the [switch] sends them to the same [case], so the
    ten enumerators have ten different labels, and the placeholder
    [" UNKNOWN "] is the label of the values that are no enumerator and of
    no other.  In both headers. *)
Theorem label_identifies_level (v1 v2 : level_t) :
  (Cpp11.levelLabel v1 = Cpp11.levelLabel v2
   <-> switch_case v1 = switch_case v2)
  /\ (Cpp23.levelLabel v1 = Cpp23.levelLabel v2
      <-> switch_case v1 = switch_case v2)
  /\ (Cpp11.levelLabel v1 = " UNKNOWN " <-> switch_case v1 = None)
  /\ (Cpp23.levelLabel v1 = " UNKNOWN " <-> switch_case v1 = None).
Proof.
  unfold Cpp11.levelLabel, Cpp23.levelLabel.
  destruct (switch_case v1) as [[]|], (switch_case v2) as [[]|];
    repeat split; intros H; try reflexivity; discriminate H.
Qed.

(** X2.  The colour does not tell the level: Notice and Profile have the
    same colour sequence, and they are the only two enumerators that share
    one.  In both headers. *)
Theorem color_shared_by_notice_and_profile (l1 l2 : Level) :
  (Cpp11.colorCode (enumerator l1) = Cpp11.colorCode (enumerator l2)
   <-> l1 = l2 \/ (l1 = Notice /\ l2 = Profile)
       \/ (l1 = Profile /\ l2 = Notice))
  /\ (Cpp23.colorCode (enumerator l1) = Cpp23.colorCode (enumerator l2)
      <-> l1 = l2 \/ (l1 = Notice /\ l2 = Profile)
          \/ (l1 = Profile /\ l2 = Notice)).
Proof.
  destruct l1, l2; split; split; intros H;
    try (left; reflexivity);
    try (right; left; split; reflexivity);
    try (right; right; split; reflexivity);
    try reflexivity;
    try (vm_compute in H; discriminate H);
    try (destruct H as [H | [[H1 H2] | [H1 H2]]]; discriminate).
Qed.

Lemma active_statement11 {U : Type} (level : Level) (category : string)
    (ops : list (Operand U)) (w : World U) :
  clog (snd (Cpp11.log_macro level false category ops w))
  = app (clog (snd (operand_texts ops (tick_system w))))
        ["[" ++ fst (Cpp11.timestamp w) ++ "]["
           ++ Cpp11.colorCode (enumerator level)
           ++ Cpp11.levelLabel (enumerator level) ++ RESET ++ "]"
           ++ (if String.eqb category "" then ""
               else "[" ++ category ++ "]")
           ++ " " ++ concat_texts (fst (operand_texts ops (tick_system w)))
           ++ RESET;
         NL].
Proof.
  unfold Cpp11.log_macro; rewrite log_statement11_run, Logger11_ctor_run.
  cbn [fst snd clog inserted Cpp11.m_stream].
  rewrite <- app_assoc; cbn [app]; now rewrite !append_assoc.
Qed.

Lemma active_statement23 {U : Type} (level : Level) (category : string)
    (ops : list (Operand U)) (w : World U) :
  clog (snd (Cpp23.log_macro level false category ops w))
  = clog (snd (Cpp11.log_macro level false category ops w)).
Proof. now rewrite log_macro_agree. Qed.

(** X3.  Without [NDEBUG], each of the ten macros emits under its own
    level: the statement [log_xxx(category) << operands] inserts into
    [std::clog], after whatever the operands wrote themselves, one line
    whose level bracket holds the colour sequence and the label of [xxx],
    followed by the newline.  In both headers. *)
Theorem active_macros_levels (U : Type) (category : string)
    (ops : list (Operand U)) (w : World U) :
  let texts := operand_texts ops (tick_system w) in
  let emitted (color label : string) :=
    app (clog (snd texts))
        ["[" ++ fst (Cpp11.timestamp w) ++ "][" ++ ESC ++ color ++ label
           ++ RESET ++ "]"
           ++ (if String.eqb category "" then ""
               else "[" ++ category ++ "]")
           ++ " " ++ concat_texts (fst texts) ++ RESET;
         NL] in
  (clog (snd (Cpp11.log_trace false category ops w))
   = emitted "[1;37m" "  TRACE  "
   /\ clog (snd (Cpp11.log_debug false category ops w))
      = emitted "[1;34m" "  DEBUG  "
   /\ clog (snd (Cpp11.log_info false category ops w))
      = emitted "[1;32m" "  INFO   "
   /\ clog (snd (Cpp11.log_notice false category ops w))
      = emitted "[1;36m" " NOTICE  "
   /\ clog (snd (Cpp11.log_warning false category ops w))
      = emitted "[1;33m" " WARNING "
   /\ clog (snd (Cpp11.log_error false category ops w))
      = emitted "[1;31m" "  ERROR  "
   /\ clog (snd (Cpp11.log_critical false category ops w))
      = emitted "[1;35m" "CRITICAL "
   /\ clog (snd (Cpp11.log_alert false category ops w))
      = emitted "[1;41m" "  ALERT  "
   /\ clog (snd (Cpp11.log_emergency false category ops w))
      = emitted "[1;41;97m" "EMERGENCY"
   /\ clog (snd (Cpp11.log_profiling false category ops w))
      = emitted "[1;36m" "PROFILING")
  /\ (clog (snd (Cpp23.log_trace false category ops w))
      = emitted "[1;37m" "  TRACE  "
      /\ clog (snd (Cpp23.log_debug false category ops w))
         = emitted "[1;34m" "  DEBUG  "
      /\ clog (snd (Cpp23.log_info false category ops w))
         = emitted "[1;32m" "  INFO   "
      /\ clog (snd (Cpp23.log_notice false category ops w))
         = emitted "[1;36m" " NOTICE  "
      /\ clog (snd (Cpp23.log_warning false category ops w))
         = emitted "[1;33m" " WARNING "
      /\ clog (snd (Cpp23.log_error false category ops w))
         = emitted "[1;31m" "  ERROR  "
      /\ clog (snd (Cpp23.log_critical false category ops w))
         = emitted "[1;35m" "CRITICAL "
      /\ clog (snd (Cpp23.log_alert false category ops w))
         = emitted "[1;41m" "  ALERT  "
      /\ clog (snd (Cpp23.log_emergency false category ops w))
         = emitted "[1;41;97m" "EMERGENCY"
      /\ clog (snd (Cpp23.log_profiling false category ops w))
         = emitted "[1;36m" "PROFILING").
Proof.
  intros texts emitted; subst emitted texts; cbv beta.
  unfold Cpp11.log_trace, Cpp11.log_debug, Cpp11.log_info, Cpp11.log_notice,
    Cpp11.log_warning, Cpp11.log_error, Cpp11.log_critical, Cpp11.log_alert,
    Cpp11.log_emergency, Cpp11.log_profiling,
    Cpp23.log_trace, Cpp23.log_debug, Cpp23.log_info, Cpp23.log_notice,
    Cpp23.log_warning, Cpp23.log_error, Cpp23.log_critical, Cpp23.log_alert,
    Cpp23.log_emergency, Cpp23.log_profiling.
  rewrite !active_statement23, !active_statement11.
  repeat split; (do 2 f_equal); norm_text; reflexivity.
Qed.

(** ** How statements compose *)

Lemma text_operands {U : Type} (texts : list string) (w : World U) :
  operand_texts (map value texts) w = (texts, w).
Proof.
  induction texts as [|t texts IH]; [reflexivity |].
  cbn [map value operand_texts]; unfold bind, ret at 1.
  now rewrite IH.
Qed.

Lemma single_operand {U T : Type} (I : Insertable T) (e : M U T)
    (w : World U) :
  operand_texts [operand I e] w = ([insert_text (fst (e w))], snd (e w)).
Proof. cbn [operand_texts]; unfold bind, ret; now destruct (e w). Qed.

Lemma text_statement11 {U : Type} (level : Level) (category : string)
    (texts : list string) (w : World U) :
  Cpp11.log_macro level false category (map value texts) w
  = (tt,
     logged ("[" ++ fst (Cpp11.timestamp w) ++ "]["
                 ++ Cpp11.colorCode (enumerator level)
                 ++ Cpp11.levelLabel (enumerator level) ++ RESET ++ "]"
                 ++ (if String.eqb category "" then ""
                     else "[" ++ category ++ "]")
                 ++ " " ++ concat_texts texts ++ RESET) w).
Proof.
  unfold Cpp11.log_macro; rewrite log_statement11_run, Logger11_ctor_run.
  rewrite text_operands; cbn [fst snd Cpp11.m_stream]; unfold logged.
  now rewrite !append_assoc.
Qed.

Lemma text_statement23 {U : Type} (level : Level) (category : string)
    (texts : list string) (w : World U) :
  Cpp23.log_macro level false category (map value texts) w
  = Cpp11.log_macro level false category (map value texts) w.
Proof. apply log_macro_agree. Qed.

(** X4.  A log statement whose operand is a call that logs: the line of the
    call reaches [std::clog] before the line of the statement, although the
    statement read the clock first, since a line is written when its
    [Logger] dies.  The stream is therefore not ordered by time stamp.  In
    both headers. *)
Theorem nested_statement_emitted_first (U T : Type) (I : Insertable T)
    (outer inner : Level) (outer_category inner_category : string)
    (inner_texts : list string) (v : T) (w : World U) :
  let line level ts category body :=
    "[" ++ ts ++ "][" ++ Cpp11.colorCode (enumerator level)
        ++ Cpp11.levelLabel (enumerator level) ++ RESET ++ "]"
        ++ (if String.eqb category "" then "" else "[" ++ category ++ "]")
        ++ " " ++ body ++ RESET in
  let first_reading := fst (Cpp11.timestamp w) in
  let second_reading := fst (Cpp11.timestamp (tick_system w)) in
  clog (snd (Cpp11.log_macro outer false outer_category
               [operand I (Cpp11.logging_call inner inner_category
                             inner_texts v)] w))
  = app (clog w)
        [line inner second_reading inner_category
              (concat_texts inner_texts);
         NL;
         line outer first_reading outer_category (insert_text v);
         NL]
  /\ clog (snd (Cpp23.log_macro outer false outer_category
                  [operand I (Cpp23.logging_call inner inner_category
                                inner_texts v)] w))
     = app (clog w)
           [line inner second_reading inner_category
                 (concat_texts inner_texts);
            NL;
            line outer first_reading outer_category (insert_text v);
            NL].
Proof.
  intros line first_reading second_reading;
    subst line first_reading second_reading; cbv beta.
  assert (H23 : forall w',
             Cpp23.logging_call (U := U) inner inner_category inner_texts v w'
             = Cpp11.logging_call inner inner_category inner_texts v w').
  { intros w'; unfold Cpp23.logging_call, Cpp11.logging_call, bind.
    now rewrite text_statement23. }
  unfold Cpp23.log_macro, Cpp11.log_macro.
  rewrite log_statement23_run, log_statement11_run.
  destruct (Logger_ctor_agree (enumerator outer) outer_category w) as [-> _].
  rewrite Logger11_ctor_run.
  rewrite !single_operand, H23.
  unfold Cpp11.logging_call, bind; rewrite text_statement11.
  unfold ret, logged, concat_texts.
  cbn [fst snd Cpp11.m_stream fold_right clog inserted tick_system].
  rewrite <- !app_assoc; cbn [app].
  split; norm_text; reflexivity.
Qed.

(** X5.  Two log statements one after the other: each reads the system
    clock once, the first before the second, and their lines reach
    [std::clog] in the order of the program, each followed by its newline.
    In both headers. *)
Theorem statements_in_program_order (U : Type) (first second : Level)
    (first_category second_category : string)
    (first_texts second_texts : list string) (w : World U) :
  let line level ts category body :=
    "[" ++ ts ++ "][" ++ Cpp11.colorCode (enumerator level)
        ++ Cpp11.levelLabel (enumerator level) ++ RESET ++ "]"
        ++ (if String.eqb category "" then "" else "[" ++ category ++ "]")
        ++ " " ++ body ++ RESET in
  let first_reading := fst (Cpp11.timestamp w) in
  let second_reading := fst (Cpp11.timestamp (tick_system w)) in
  let emitted :=
    app (clog w)
        [line first first_reading first_category (concat_texts first_texts);
         NL;
         line second second_reading second_category
              (concat_texts second_texts);
         NL] in
  clog (snd ((Cpp11.log_macro first false first_category
                (map value first_texts) ;;
              Cpp11.log_macro second false second_category
                (map value second_texts)) w))
  = emitted
  /\ clog (snd ((Cpp23.log_macro first false first_category
                   (map value first_texts) ;;
                 Cpp23.log_macro second false second_category
                   (map value second_texts)) w))
     = emitted.
Proof.
  intros line first_reading second_reading emitted;
    subst emitted line first_reading second_reading; cbv beta.
  unfold bind.
  repeat (progress (rewrite ?text_statement23, ?text_statement11;
                    cbn [fst snd])).
  unfold logged; cbn [clog inserted tick_system].
  rewrite <- !app_assoc; cbn [app].
  split; reflexivity.
Qed.

Lemma append_length (s t : string) :
  String.length (s ++ t) = (String.length s + String.length t)%nat.
Proof. induction s as [|c s IH]; simpl; [reflexivity | now rewrite IH]. Qed.

(** X6.  The logger adds no newline of its own inside a line and removes
    none: the line a statement inserts before its final newline has exactly
    the newline characters of the category and of the texts of the
    operands.  A record is one line of output exactly when the caller
    streams no newline.  In both headers. *)
Theorem newlines_only_from_the_caller (U : Type) (level : Level)
    (category : string) (ops : list (Operand U)) (w : World U) :
  let texts := operand_texts ops (tick_system w) in
  exists line,
    clog (snd (Cpp11.log_macro level false category ops w))
    = app (clog (snd texts)) [line; NL]
    /\ clog (snd (Cpp23.log_macro level false category ops w))
       = app (clog (snd texts)) [line; NL]
    /\ count_char "010" line
       = (count_char "010" category
          + count_char "010" (concat_texts (fst texts)))%nat.
Proof.
  intros texts; subst texts.
  eexists; split; [| split].
  - unfold Cpp11.log_macro; rewrite log_statement11_run.
    cbn [snd clog inserted]; rewrite <- app_assoc; cbn [app]; reflexivity.
  - rewrite log_macro_agree.
    unfold Cpp11.log_macro; rewrite log_statement11_run.
    cbn [snd clog inserted]; rewrite <- app_assoc; cbn [app]; reflexivity.
  - rewrite Logger11_ctor_run; cbn [fst Cpp11.m_stream].
    pose proof (stamp_char_absent "010" _ eq_refl (timestamp11_chars w))
      as Hts.
    rewrite !count_char_app, (count_char_absent _ _ Hts).
    unfold Cpp11.colorCode, Cpp11.levelLabel.
    destruct (switch_case (enumerator level)) as [[]|];
      destruct category as [|c category];
      cbn [String.eqb append count_char Ascii.eqb Bool.eqb RESET ESC
           Nat.add];
      rewrite ?count_char_app; cbn [count_char Ascii.eqb Bool.eqb]; lia.
Qed.

(** ** What a terminal shows *)

Lemma visible_plain (s t : string) :
  absent "027" s = true ->
  visible_scan false (s ++ t) = s ++ visible_scan false t.
Proof.
  unfold absent; induction s as [|c s IH]; [reflexivity |].
  cbn [forall_chars append visible_scan]; intros H.
  apply andb_true_iff in H as [Hc Hs]; apply negb_true_iff in Hc.
  rewrite Ascii.eqb_sym in Hc; now rewrite Hc, (IH Hs).
Qed.

Lemma visible_plain_text (s : string) :
  absent "027" s = true -> visible_scan false s = s.
Proof.
  intros H; rewrite <- (append_nil_r s) at 1.
  now rewrite (@visible_plain _ _ H), append_nil_r.
Qed.

Lemma visible_level_bracket (level : level_t) (rest : string) :
  visible_scan false
    (Cpp11.colorCode level ++ Cpp11.levelLabel level ++ RESET ++ rest)
  = Cpp11.levelLabel level ++ visible_scan false rest.
Proof.
  unfold Cpp11.colorCode, Cpp11.levelLabel.
  destruct (switch_case level) as [[]|]; reflexivity.
Qed.

(** X7.  What a terminal shows of a header is
    [[<timestamp>][<label>]], the category and a space, without the colour
    sequences; as every label has nine characters, headers with the same
    category have the same visible width whatever the level, also for a
    value that is no enumerator.  The category must contain no escape
    character.  In both headers. *)
Theorem header_visible_width (U : Type) (v1 v2 : level_t)
    (category : string) (w : World U) :
  absent "027" category = true ->
  let header v := Cpp11.m_stream (fst (Cpp11.Logger_ctor v category w)) in
  visible (header v1)
  = "[" ++ fst (Cpp11.timestamp w) ++ "][" ++ Cpp11.levelLabel v1 ++ "]"
        ++ (if String.eqb category "" then "" else "[" ++ category ++ "]")
        ++ " "
  /\ String.length (visible (header v1)) = String.length (visible (header v2))
  /\ visible (Cpp23.m_stream (fst (Cpp23.Logger_ctor v1 category w)))
     = visible (header v1).
Proof.
  intros Hcat header.
  assert (Hv : forall v,
             visible (header v)
             = "[" ++ fst (Cpp11.timestamp w) ++ "][" ++ Cpp11.levelLabel v
                   ++ "]"
                   ++ (if String.eqb category "" then ""
                       else "[" ++ category ++ "]")
                   ++ " ").
  { intros v; subst header; cbv beta.
    rewrite Logger11_ctor_run; cbn [fst Cpp11.m_stream]; unfold visible.
    pose proof (stamp_char_absent "027" _ eq_refl (timestamp11_chars w))
      as Hts.
    cbn [append visible_scan Ascii.eqb Bool.eqb]; f_equal.
    rewrite (@visible_plain _ _ Hts); f_equal.
    cbn [append visible_scan Ascii.eqb Bool.eqb]; do 2 f_equal.
    rewrite visible_level_bracket; f_equal.
    apply visible_plain_text; unfold absent in *.
    destruct (String.eqb_spec category "") as [-> | _]; [reflexivity |].
    cbn [append forall_chars]; now rewrite !forall_chars_app, Hcat. }
  split; [apply Hv | split].
  - rewrite !Hv, !append_length.
    assert (L : forall v, String.length (Cpp11.levelLabel v) = 9%nat).
    { intros v; unfold Cpp11.levelLabel.
      destruct (switch_case v) as [[]|]; reflexivity. }
    now rewrite !L.
  - destruct (Logger_ctor_agree v1 category w) as [-> _]; reflexivity.
Qed.

Lemma header_visible_width_witness :
  String.length
    (visible (Cpp11.m_stream
                (fst (Cpp11.Logger_ctor (enumerator Info) "net"
                        example_world))))
  = String.length
      (visible (Cpp11.m_stream
                  (fst (Cpp11.Logger_ctor (enumerator Emergency) "net"
                          example_world)))).
Proof.
  apply (@header_visible_width nat (enumerator Info) (enumerator Emergency)
           "net" example_world).
  reflexivity.
Defined.

(** ** Timers and time stamps *)



Ltac run_timers :=
  repeat (progress
            (rewrite ?ScopeLogger11_ctor_run, ?ScopeLogger23_ctor_run,
               ?ScopeLogger11_dtor_run, ?ScopeLogger23_dtor_run;
             cbn [fst snd ret
                  Cpp11.m_tag Cpp11.m_file_name Cpp11.m_line Cpp11.m_start
                  Cpp23.m_tag Cpp23.m_file_name Cpp23.m_line Cpp23.m_start
                  Cpp11.ScopeLogger_move_assign
                  Cpp23.ScopeLogger_move_assign]));
  unfold logged, ret;
  cbn [fst snd clog inserted tick_system tick_steady uncaught steady_clock
       steady_reads system_clock system_reads localtime];
  rewrite <- ?app_assoc; cbn [app].

(** X9.  Two timers in one block, [log_profile(a); log_profile(b); rest]:
    the START lines come in the order of the declarations, the leave lines
    in the reverse order, first [b] and then [a], after the rest of the
    block; each duration is measured from the construction of its own
    timer, and the block returns what the rest returns.  In both
    headers. *)
Theorem nested_timers_leave_in_reverse (U A : Type)
    (tag_a file_a : string) (line_a : Z) (tag_b file_b : string) (line_b : Z)
    (rest : M U A) (w : World U) :
  let start_a := steady_clock w (steady_reads w) in
  let start_b := steady_clock w (S (steady_reads w)) in
  let started11 :=
    snd (Cpp11.ScopeLogger_ctor false tag_b file_b line_b
           (snd (Cpp11.ScopeLogger_ctor false tag_a file_a line_a w))) in
  let started23 :=
    snd (Cpp23.ScopeLogger_ctor false tag_b file_b line_b
           (snd (Cpp23.ScopeLogger_ctor false tag_a file_a line_a w))) in
  let block11 :=
    Cpp11.log_profile false tag_a file_a line_a
      (Cpp11.log_profile false tag_b file_b line_b rest) w in
  let block23 :=
    Cpp23.log_profile false tag_a file_a line_a
      (Cpp23.log_profile false tag_b file_b line_b rest) w in
  let start_line (number : Z -> string) ts tag file line :=
    profile_header ts ++ "START " ++ tag ++ " @ " ++ file ++ ":"
      ++ number line ++ RESET in
  let leave_line (number : Z -> string) (left : World U) ts tag file line
      elapsed :=
    profile_header ts ++ leave_word (uncaught left) ++ " " ++ tag ++ " ("
      ++ fixed3 (duration_cast_microseconds elapsed) ++ "ms) @ " ++ file
      ++ ":" ++ number line ++ RESET in
  let starts number :=
    app (clog w)
        [start_line number (fst (Cpp11.timestamp w)) tag_a file_a line_a;
         NL;
         start_line number (fst (Cpp11.timestamp (tick_system w)))
                    tag_b file_b line_b;
         NL] in
  let leaves number left :=
    app (clog left)
        [leave_line number left (fst (Cpp11.timestamp left))
                    tag_b file_b line_b
                    (steady_clock left (steady_reads left) - start_b);
         NL;
         leave_line number left (fst (Cpp11.timestamp (tick_system left)))
                    tag_a file_a line_a
                    (steady_clock left (S (steady_reads left)) - start_a);
         NL] in
  (clog started11 = starts show_int
   /\ clog (snd block11) = leaves show_int (snd (rest started11))
   /\ fst block11 = fst (rest started11))
  /\ (clog started23 = starts show_uint32
      /\ clog (snd block23) = leaves show_uint32 (snd (rest started23))
      /\ fst block23 = fst (rest started23)).
Proof.
  intros start_a start_b started11 started23 block11 block23 start_line
    leave_line starts leaves.
  subst leaves starts leave_line start_line block23 block11 started23
    started11 start_b start_a.
  unfold Cpp11.log_profile, Cpp23.log_profile, bind; cbv beta.
  run_timers.
  split; destruct (rest _) as [r w2]; run_timers; repeat split.
Qed.

(** X10.  The defaulted move assignment [a = std::move(b)] overwrites the
    tag, file, line and start of [a] without emitting anything: at the end
    of the block two leave lines are emitted and both are measured from the
    construction of [b] and carry the line number of [b].  The second has
    the tag and file of [b]; the first has what the assignment left in [b]
    (the strings the library leaves in the first header, the unchanged
    views of [b] in the second).  No leave line is built from what [a]
    was constructed with. *)
Theorem reassigned_timer_loses_its_finish (U A : Type)
    (left_tag left_file tag_a file_a : string) (line_a : Z)
    (tag_b file_b : string) (line_b : Z) (rest : M U A) (w : World U) :
  let start_b := steady_clock w (S (steady_reads w)) in
  let started11 :=
    snd (Cpp11.ScopeLogger_ctor false tag_b file_b line_b
           (snd (Cpp11.ScopeLogger_ctor false tag_a file_a line_a w))) in
  let started23 :=
    snd (Cpp23.ScopeLogger_ctor false tag_b file_b line_b
           (snd (Cpp23.ScopeLogger_ctor false tag_a file_a line_a w))) in
  let leave_line (number : Z -> string) (left : World U) ts tag file
      elapsed :=
    profile_header ts ++ leave_word (uncaught left) ++ " " ++ tag ++ " ("
      ++ fixed3 (duration_cast_microseconds elapsed) ++ "ms) @ " ++ file
      ++ ":" ++ number line_b ++ RESET in
  let leaves number left first_tag first_file :=
    app (clog left)
        [leave_line number left (fst (Cpp11.timestamp left))
                    first_tag first_file
                    (steady_clock left (steady_reads left) - start_b);
         NL;
         leave_line number left (fst (Cpp11.timestamp (tick_system left)))
                    tag_b file_b
                    (steady_clock left (S (steady_reads left)) - start_b);
         NL] in
  clog (snd (Cpp11.reassigned_block false left_tag left_file
               tag_a file_a line_a tag_b file_b line_b rest w))
  = leaves show_int (snd (rest started11)) left_tag left_file
  /\ clog (snd (Cpp23.reassigned_block false
                  tag_a file_a line_a tag_b file_b line_b rest w))
     = leaves show_uint32 (snd (rest started23)) tag_b file_b.
Proof.
  intros start_b started11 started23 leave_line leaves.
  subst leaves leave_line started23 started11 start_b.
  unfold Cpp11.reassigned_block, Cpp23.reassigned_block, bind; cbv beta.
  run_timers.
  split; destruct (rest _) as [r w2]; run_timers; reflexivity.
Qed.

(** X11.  The destructor looks at whether any exception is uncaught, not at
    whether one was thrown since the timer was built.  A block that is
    entered while an exception is already being unwound (in a destructor,
    say) and is left with the same number of uncaught exceptions, that is
    by a normal exit, has the leave word [EXCEPTION!].  In both
    headers. *)
Theorem normal_exit_during_unwinding (U A : Type) (tag file : string)
    (line : Z) (rest : M U A) (w : World U) :
  let started11 := snd (Cpp11.ScopeLogger_ctor false tag file line w) in
  let started23 := snd (Cpp23.ScopeLogger_ctor false tag file line w) in
  let leave_line (number : Z -> string) (left : World U) :=
    profile_header (fst (Cpp11.timestamp left)) ++ "EXCEPTION!" ++ " " ++ tag
      ++ " ("
      ++ fixed3 (duration_cast_microseconds
                   (steady_clock left (steady_reads left)
                    - steady_clock w (steady_reads w)))
      ++ "ms) @ " ++ file ++ ":" ++ number line ++ RESET in
  uncaught w <> 0%nat ->
  uncaught (snd (rest started11)) = uncaught w ->
  uncaught (snd (rest started23)) = uncaught w ->
  clog (snd (Cpp11.log_profile false tag file line rest w))
  = app (clog (snd (rest started11)))
        [leave_line show_int (snd (rest started11)); NL]
  /\ clog (snd (Cpp23.log_profile false tag file line rest w))
     = app (clog (snd (rest started23)))
           [leave_line show_uint32 (snd (rest started23)); NL].
Proof.
  intros started11 started23 leave_line Hw H11 H23.
  subst leave_line started23 started11.
  unfold Cpp11.log_profile, Cpp23.log_profile, bind; cbv beta.
  rewrite ScopeLogger11_ctor_run, ScopeLogger23_ctor_run in *.
  cbn [fst snd] in *.
  split; [clear H23 | clear H11];
    destruct (rest _) as [r w2]; cbn [snd] in *;
    rewrite ?ScopeLogger11_dtor_run, ?ScopeLogger23_dtor_run;
    cbn [fst snd ret Cpp11.m_tag Cpp11.m_file_name Cpp11.m_line
         Cpp11.m_start Cpp23.m_tag Cpp23.m_file_name Cpp23.m_line
         Cpp23.m_start];
    unfold ret, logged, leave_word;
    cbn [snd clog inserted tick_system tick_steady];
    rewrite ?H11, ?H23;
    destruct (uncaught w) as [|n]; try contradiction; cbn [Nat.eqb];
    rewrite <- ?app_assoc; reflexivity.
Qed.

Lemma normal_exit_during_unwinding_witness :
  clog (snd (Cpp11.log_profile false "work" "main.cpp" 42 (ret tt)
               unwinding_world))
  = app (clog (snd (Cpp11.ScopeLogger_ctor false "work" "main.cpp" 42
                      unwinding_world)))
        [profile_header "22:13:20.008"
           ++ "EXCEPTION! work (1.234ms) @ main.cpp:42" ++ RESET;
         NL].
Proof.
  apply (@normal_exit_during_unwinding nat unit "work" "main.cpp" 42 (ret tt)
           unwinding_world); [discriminate | reflexivity | reflexivity].
Defined.

(** X12.  With [NDEBUG] the class [ScopeLogger] is still there.  A timer
    constructed directly, not through [log_profile], emits nothing when it
    is built and nothing when it is destroyed; each of the two reads the
    steady clock once and changes nothing else of the world.  In both
    headers. *)
Theorem inert_timer_object (U : Type) (tag file : string) (line start : Z)
    (w : World U) :
  (Cpp11.ScopeLogger_ctor true tag file line w
   = (Cpp11.mk_ScopeLogger tag file line (steady_clock w (steady_reads w)),
      tick_steady w)
   /\ Cpp11.ScopeLogger_dtor true (Cpp11.mk_ScopeLogger tag file line start) w
      = (tt, tick_steady w))
  /\ (Cpp23.ScopeLogger_ctor true tag file line w
      = (Cpp23.mk_ScopeLogger tag file line (steady_clock w (steady_reads w)),
         tick_steady w)
      /\ Cpp23.ScopeLogger_dtor true
           (Cpp23.mk_ScopeLogger tag file line start) w
         = (tt, tick_steady w))
  /\ clog (tick_steady w) = clog w
  /\ system_reads (tick_steady w) = system_reads w
  /\ steady_reads (tick_steady w) = S (steady_reads w).
Proof. repeat split. Qed.

(** X13.  Before the epoch of the system clock the remainder [% 1000] of
    the milliseconds is not positive.  When it is negative, the field after
    the point is that number with its minus sign, padded on the left with
    zeros up to three characters: it is no longer made of three digits.  In
    both headers. *)
Theorem timestamp_before_epoch (U : Type) (w : World U) :
  let now := system_clock w (system_reads w) in
  let ms := Z.rem (Z.quot now 1000000) 1000 in
  ms < 0 ->
  exists field,
    fst (Cpp11.timestamp w)
    = put_time_T (localtime w (Z.quot now 1000000000)) ++ "." ++ field
    /\ fst (Cpp23.timestamp w) = fst (Cpp11.timestamp w)
    /\ field = setw_setfill 3 "0" ("-" ++ decimal (Z.to_N (- ms)))
    /\ all_digits field = false.
Proof.
  intros now ms Hms.
  exists (setw_setfill 3 "0" ("-" ++ decimal (Z.to_N (- ms)))).
  assert (Hshow : show_int ms = "-" ++ decimal (Z.to_N (- ms))).
  { unfold show_int; destruct (ms <? 0) eqn:E;
      [| apply Z.ltb_ge in E; lia].
    f_equal; f_equal; lia. }
  repeat split.
  - rewrite timestamp11_run; cbn [fst]; cbv zeta.
    unfold duration_cast_milliseconds, to_time_t; fold now; fold ms.
    now rewrite Hshow.
  - unfold setw_setfill, all_digits.
    rewrite forall_chars_app; cbn [append forall_chars].
    change (is_digit "-") with false; cbn [andb].
    apply andb_false_r.
Qed.

Lemma timestamp_before_epoch_witness :
  exists field,
    fst (Cpp11.timestamp before_epoch_world)
    = put_time_T (utc 0) ++ "." ++ field
    /\ fst (Cpp23.timestamp before_epoch_world)
       = fst (Cpp11.timestamp before_epoch_world)
    /\ field = setw_setfill 3 "0" ("-" ++ decimal 5)
    /\ all_digits field = false.
Proof.
  apply (@timestamp_before_epoch nat before_epoch_world).
  reflexivity.
Defined.

(** Five milliseconds before the epoch: the seconds are those of the epoch
    itself, as [to_time_t] truncates towards zero. *)
Example five_ms_before_epoch_text :
  fst (Cpp11.timestamp before_epoch_world) = "00:00:00.0-5".
Proof. vm_compute; reflexivity. Qed.

(** ** The stream only grows *)

Lemma operand_texts_grow {U : Type} (ops : list (Operand U)) :
  Forall operand_grows ops -> grows (operand_texts ops).
Proof.
  induction 1 as [|[T I e] ops He Hops IH]; intros w.
  - exists []; cbn; now rewrite app_nil_r.
  - cbn [operand_texts]; unfold bind.
    destruct (He w) as [more1 H1]; destruct (e w) as [v w1]; cbn [snd] in H1.
    destruct (IH w1) as [more2 H2].
    destruct (operand_texts ops w1) as [texts w2]; cbn [snd] in *.
    exists (more1 ++ more2)%list; unfold ret; cbn [snd].
    now rewrite H2, H1, app_assoc.
Qed.

Lemma log_macro11_grows {U : Type} (level : Level) (NDEBUG : bool)
    (category : string) (ops : list (Operand U)) :
  Forall operand_grows ops ->
  grows (Cpp11.log_macro level NDEBUG category ops).
Proof.
  intros Hops w; unfold Cpp11.log_macro; destruct NDEBUG.
  - exists []; cbn; now rewrite app_nil_r.
  - rewrite log_statement11_run; cbn [snd clog inserted].
    destruct (operand_texts_grow Hops (tick_system w)) as [more Hm].
    rewrite Hm; cbn [clog tick_system].
    eexists; rewrite <- !app_assoc; reflexivity.
Qed.

Lemma timer_steps_grow {U : Type} (NDEBUG : bool) (tag file : string)
    (line : Z) (self11 : Cpp11.ScopeLogger) (self23 : Cpp23.ScopeLogger) :
  grows (U := U) (Cpp11.ScopeLogger_ctor NDEBUG tag file line)
  /\ grows (U := U) (Cpp11.ScopeLogger_dtor NDEBUG self11)
  /\ grows (U := U) (Cpp23.ScopeLogger_ctor NDEBUG tag file line)
  /\ grows (U := U) (Cpp23.ScopeLogger_dtor NDEBUG self23).
Proof.
  destruct NDEBUG;
    [repeat split; intros w; exists []; cbn [app]; now rewrite app_nil_r |].
  repeat split; intros w;
    rewrite ?ScopeLogger11_ctor_run, ?ScopeLogger23_ctor_run,
      ?ScopeLogger11_dtor_run, ?ScopeLogger23_dtor_run;
    unfold logged; cbn [snd clog inserted tick_system tick_steady];
    eexists; rewrite <- !app_assoc; reflexivity.
Qed.

(** X14.  Nothing the headers do removes or changes what [std::clog] has
    already received: when the operands of a statement and the rest of a
    block only add to the stream, so do the statement, with any macro and
    with or without [NDEBUG], and the block that starts with
    [log_profile].  In both headers. *)
Theorem output_only_grows (U A : Type) (level : Level) (NDEBUG : bool)
    (category tag file : string) (line : Z) (ops : list (Operand U))
    (rest : M U A) :
  Forall operand_grows ops -> grows rest ->
  grows (Cpp11.log_macro level NDEBUG category ops)
  /\ grows (Cpp23.log_macro level NDEBUG category ops)
  /\ grows (Cpp11.log_profile NDEBUG tag file line rest)
  /\ grows (Cpp23.log_profile NDEBUG tag file line rest).
Proof.
  intros Hops Hrest.
  assert (H11 := log_macro11_grows level NDEBUG category Hops).
  repeat split; trivial.
  - intros w; rewrite log_macro_agree; apply H11.
  - intros w; unfold Cpp11.log_profile; destruct NDEBUG; [apply Hrest |].
    unfold bind.
    destruct (timer_steps_grow (U := U) false tag file line
                (Cpp11.mk_ScopeLogger "" "" 0 0)
                (Cpp23.mk_ScopeLogger "" "" 0 0)) as (Hc & _).
    destruct (Hc w) as [m1 H1].
    destruct (Cpp11.ScopeLogger_ctor false tag file line w) as [s w1].
    destruct (Hrest w1) as [m2 H2]; destruct (rest w1) as [r w2].
    destruct (timer_steps_grow (U := U) false tag file line s
                (Cpp23.mk_ScopeLogger "" "" 0 0)) as (_ & Hd & _).
    destruct (Hd w2) as [m3 H3].
    destruct (Cpp11.ScopeLogger_dtor false s w2) as [u w3].
    cbn [snd] in *; unfold ret; cbn [snd].
    exists (m1 ++ m2 ++ m3)%list; rewrite H3, H2, H1.
    now rewrite <- !app_assoc.
  - intros w; unfold Cpp23.log_profile; destruct NDEBUG; [apply Hrest |].
    unfold bind.
    destruct (timer_steps_grow (U := U) false tag file line
                (Cpp11.mk_ScopeLogger "" "" 0 0)
                (Cpp23.mk_ScopeLogger "" "" 0 0)) as (_ & _ & Hc & _).
    destruct (Hc w) as [m1 H1].
    destruct (Cpp23.ScopeLogger_ctor false tag file line w) as [s w1].
    destruct (Hrest w1) as [m2 H2]; destruct (rest w1) as [r w2].
    destruct (timer_steps_grow (U := U) false tag file line
                (Cpp11.mk_ScopeLogger "" "" 0 0) s) as (_ & _ & _ & Hd).
    destruct (Hd w2) as [m3 H3].
    destruct (Cpp23.ScopeLogger_dtor false s w2) as [u w3].
    cbn [snd] in *; unfold ret; cbn [snd].
    exists (m1 ++ m2 ++ m3)%list; rewrite H3, H2, H1.
    now rewrite <- !app_assoc.
Qed.

Lemma output_only_grows_witness :
  grows (Cpp11.log_macro (U := nat) Info false "net" [value "up"])
  /\ grows (Cpp23.log_macro (U := nat) Info false "net" [value "up"])
  /\ grows (Cpp11.log_profile (U := nat) false "work" "main.cpp" 42
              (ret tt))
  /\ grows (Cpp23.log_profile (U := nat) false "work" "main.cpp" 42
              (ret tt)).
Proof.
  apply (@output_only_grows nat unit Info false "net" "work" "main.cpp" 42
           [value "up"] (ret tt)).
  - repeat constructor; intros w; exists []; cbn; now rewrite app_nil_r.
  - intros w; exists []; cbn; now rewrite app_nil_r.
Defined.
